(** * The nuclio dashboard client and the deploy command

    A shallow embedding of [Dashboard] (the platform client: projects,
    functions, invocation, readiness polling) and of [deploy] (the editor
    command that reads a function directory and creates the function).

    Layout: JavaScript values and the handful of object primitives the two
    files use; the world (heap of caller-owned objects, remote dashboard,
    observable trace) and its monad; the client; the deploy command; then
    the theorems. *)

From Stdlib Require Import ZArith String Ascii List Bool Lia DecimalString.
From stdpp Require Import base option list gmap strings.

Set Warnings "-register-all".

Local Open Scope string_scope.
Local Open Scope list_scope.

(** ** JavaScript values

    Payloads are whatever JSON can carry plus [undefined].  A [VObject]
    lists its own enumerable properties in the order [Object.keys] reports
    them (array indices first, in ascending order, then the other names
    as they were created); object graphs are trees (what JSON parsing produces).  Numbers
    are the integer-valued ones; no code path below does arithmetic on a
    payload number. *)

Inductive value : Type :=
| VUndefined
| VNull
| VBool (b : bool)
| VNumber (z : Z)
| VString (s : string)
| VArray (elems : list value)
| VObject (props : list (string * value)).

(** What a computation can end in: a value, a thrown exception, or a step
    outside the fragment of JavaScript modelled here (a property write on
    an array, a member of [axios] that is not an HTTP verb).  [try]/[catch]
    does not intercept the latter. *)

Inductive exn : Type :=
| JsError (message : string)      (* new Error(message) *)
| JsTypeError                     (* raised by the engine *)
| AxiosFailure (reason : value)   (* rejected axios promise *)
| FsFailure.                      (* fs call that throws *)

Inductive outcome (A : Type) : Type :=
| Returned (a : A)
| Threw (e : exn)
| Unmodelled.

Arguments Returned {A} a.
Arguments Threw {A} e.
Arguments Unmodelled {A}.

Definition obind {A B} (r : outcome A) (k : A -> outcome B) : outcome B :=
  match r with
  | Returned a => k a
  | Threw e => Threw e
  | Unmodelled => Unmodelled
  end.

(** *** Property tables *)

Fixpoint lookup_prop (k : string) (props : list (string * value)) : option value :=
  match props with
  | [] => None
  | (k', v) :: rest => if String.eqb k k' then Some v else lookup_prop k rest
  end.

(** A property name that is an array index: the canonical decimal name
    of an integer below [2^32 - 1].  [Object.keys] and [Object.assign] list
    such names first, in ascending order, and the other names after them in
    the order they were created. *)
Definition array_index (k : string) : option N :=
  match NilZero.uint_of_string k with
  | Some digits =>
      let n := N.of_uint digits in
      if String.eqb (NilZero.string_of_uint (N.to_uint n)) k && (n <? 4294967295)%N
      then Some n
      else None
  | None => None
  end.

(** Overwriting an own property: it keeps its position. *)
Fixpoint replace_prop (k : string) (x : value) (props : list (string * value))
  : list (string * value) :=
  match props with
  | [] => []
  | (k', v) :: rest =>
      if String.eqb k k' then (k', x) :: rest else (k', v) :: replace_prop k x rest
  end.

(** Creating an own property named by the array index [n]: it goes after
    the smaller indices and before everything else. *)
Fixpoint insert_index (n : N) (k : string) (x : value) (props : list (string * value))
  : list (string * value) :=
  match props with
  | [] => [(k, x)]
  | (k', v) :: rest =>
      match array_index k' with
      | Some n' =>
          if (n' <? n)%N then (k', v) :: insert_index n k x rest else (k, x) :: props
      | None => (k, x) :: props
      end
  end.

(** [o[k] = x] on a property table: an existing key keeps its position, a
    new array index joins the indices in ascending order, any other new
    key goes last. *)
Definition store_prop (k : string) (x : value) (props : list (string * value))
  : list (string * value) :=
  match lookup_prop k props with
  | Some _ => replace_prop k x props
  | None =>
      match array_index k with
      | Some n => insert_index n k x props
      | None => props ++ [(k, x)]
      end
  end.

Arguments store_prop : simpl never.

Definition index_name (i : nat) : string :=
  NilZero.string_of_uint (Nat.to_uint i).

Fixpoint indexed {A} (i : nat) (l : list A) : list (string * A) :=
  match l with
  | [] => []
  | x :: rest => (index_name i, x) :: indexed (S i) rest
  end.

Fixpoint chars (s : string) : list value :=
  match s with
  | EmptyString => []
  | String c rest => VString (String c EmptyString) :: chars rest
  end.

(** Own enumerable properties, as [Object.keys] and [Object.assign] see
    them. *)
Definition own_props (v : value) : list (string * value) :=
  match v with
  | VObject props => props
  | VArray elems => indexed 0 elems
  | VString s => indexed 0 (chars s)
  | _ => []
  end.

Definition nullish (v : value) : bool :=
  match v with
  | VUndefined | VNull => true
  | _ => false
  end.

(** [v ? a : b] *)
Definition truthy (v : value) : bool :=
  match v with
  | VUndefined | VNull => false
  | VBool b => b
  | VNumber z => negb (Z.eqb z 0)
  | VString s => negb (String.eqb s "")
  | VArray _ | VObject _ => true
  end.

(** [v[k]] on a value that is neither [undefined] nor [null]: the own
    property, or [undefined].  Inherited members ([length], methods) are
    not modelled: the code reads none. *)
Definition prop_of (v : value) (k : string) : value :=
  default VUndefined (lookup_prop k (own_props v)).

(** [v[k]] in general: reading from [undefined] or [null] is a TypeError. *)
Definition get_prop (v : value) (k : string) : outcome value :=
  if nullish v then Threw JsTypeError else Returned (prop_of v k).

(** [v[k] = x] in a strict-mode module: a TypeError on [undefined], [null]
    and on primitives. *)
Definition set_prop (v : value) (k : string) (x : value) : outcome value :=
  match v with
  | VObject props => Returned (VObject (store_prop k x props))
  | VArray _ => Unmodelled
  | _ => Threw JsTypeError
  end.

(** [v.p1.....pn[k] = x]: walk to the holder, write there, and rebuild the
    tree around it. *)
Fixpoint set_path (v : value) (path : list string) (k : string) (x : value)
  : outcome value :=
  match path with
  | [] => set_prop v k x
  | p :: rest =>
      obind (get_prop v p) (fun child =>
      obind (set_path child rest k x) (fun child' =>
      match v with
      | VObject props => Returned (VObject (store_prop p child' props))
      | _ => Unmodelled
      end))
  end.

(** [Object.keys(v)] *)
Definition Object_keys (v : value) : outcome (list string) :=
  if nullish v then Threw JsTypeError else Returned (map fst (own_props v)).

(** [Object.assign(target, source)] for the object targets the client
    builds: own properties of [source] are written in order.  A source
    member named [__proto__], which JavaScript hands to the prototype
    setter instead of creating a property, is outside the model. *)
Definition Object_assign (target : list (string * value)) (source : value)
  : list (string * value) :=
  fold_left (fun acc kv => store_prop (fst kv) (snd kv) acc) (own_props source) target.

(** [v === 'literal'] *)
Definition is_string (v : value) (s : string) : bool :=
  match v with
  | VString s' => String.eqb s' s
  | _ => false
  end.

Definition is_undefined (v : value) : bool :=
  match v with
  | VUndefined => true
  | _ => false
  end.

Definition string_of_Z (z : Z) : string := NilZero.string_of_int (Z.to_int z).

(** String conversion inside a template literal. *)
Fixpoint ToString (v : value) : string :=
  match v with
  | VUndefined => "undefined"
  | VNull => "null"
  | VBool true => "true"
  | VBool false => "false"
  | VNumber z => string_of_Z z
  | VString s => s
  | VArray elems =>
      (fix join (l : list value) : string :=
         match l with
         | [] => ""
         | [e] => if nullish e then "" else ToString e
         | e :: rest =>
             String.append (if nullish e then "" else ToString e)
                           (String.append "," (join rest))
         end) elems
  | VObject _ => "[object Object]"
  end.

(** ** The wire: axios requests and replies *)

Inductive verb : Type := GET | DELETE | HEAD | OPTIONS | POST | PUT | PATCH.

(** What the caller hands to axios: the verb, the URL, the payload and the
    [headers] member of the config ([VUndefined] where none is passed). *)
Record Request : Type := mkRequest {
  req_verb : verb;
  req_url : string;
  req_data : value;
  req_headers : value
}.

Record Response : Type := mkResponse {
  resp_status : Z;
  resp_headers : value;
  resp_data : value
}.

(** A request either resolves with a response or rejects (network failure,
    non-2xx status). *)
Inductive Reply : Type :=
| Fulfilled (r : Response)
| Rejected (reason : value).

(** [axios[name]] for the request methods. *)
Definition axios_member (name : string) : option verb :=
  if String.eqb name "get" then Some GET
  else if String.eqb name "delete" then Some DELETE
  else if String.eqb name "head" then Some HEAD
  else if String.eqb name "options" then Some OPTIONS
  else if String.eqb name "post" then Some POST
  else if String.eqb name "put" then Some PUT
  else if String.eqb name "patch" then Some PATCH
  else None.

(** [post], [put] and [patch] take [(url, data, config)]; the others take
    [(url, config)]. *)
Definition takes_data (v : verb) : bool :=
  match v with
  | POST | PUT | PATCH => true
  | _ => false
  end.

Definition nth_arg (args : list value) (i : nat) : value :=
  default VUndefined (args !! i).

(** The request a call [axios.<verb>(url, ...args)] dispatches. *)
Definition verb_request (v : verb) (url : string) (args : list value) : Request :=
  if takes_data v then
    mkRequest v url (nth_arg args 0) (prop_of (nth_arg args 1) "headers")
  else
    mkRequest v url (prop_of (nth_arg args 0) "data") (prop_of (nth_arg args 0) "headers").

(** ** The world *)

Inductive Event : Type :=
| Http (r : Request)                      (* a request handed to axios *)
| SetTimeout (ms : Z)                     (* an awaited timer *)
| AppendLine (line : string)              (* channel.appendLine *)
| ShowInformationMessage (msg : string).  (* vscode.window.showInformationMessage *)

Definition loc := nat.

(** Objects the caller passes by reference live in [heap]; [server] is the
    state of the remote dashboard; [trace] is everything observable, in
    the order it happened. *)
Record World (Srv : Type) : Type := mkWorld {
  heap : gmap loc value;
  server : Srv;
  trace : list Event
}.

Arguments mkWorld {Srv} heap server trace.
Arguments heap {Srv} w.
Arguments server {Srv} w.
Arguments trace {Srv} w.

Section Monad.
Context {Srv : Type}.

Definition M (A : Type) : Type := World Srv -> outcome A * World Srv.

Definition ret {A} (a : A) : M A := fun w => (Returned a, w).

Definition bind {A B} (m : M A) (k : A -> M B) : M B :=
  fun w =>
    match m w with
    | (Returned a, w') => k a w'
    | (Threw e, w') => (Threw e, w')
    | (Unmodelled, w') => (Unmodelled, w')
    end.

Definition throw {A} (e : exn) : M A := fun w => (Threw e, w).

(** [try { m } catch (e) { h e }] *)
Definition try_catch {A} (m : M A) (h : exn -> M A) : M A :=
  fun w =>
    match m w with
    | (Threw e, w') => h e w'
    | r => r
    end.

Definition lift {A} (r : outcome A) : M A := fun w => (r, w).

Definition emit (e : Event) : M unit :=
  fun w => (Returned tt, mkWorld (heap w) (server w) (trace w ++ [e])).

Definition deref (l : loc) : M value :=
  fun w =>
    match heap w !! l with
    | Some v => (Returned v, w)
    | None => (Unmodelled, w)
    end.

Definition store (l : loc) (v : value) : M unit :=
  fun w => (Returned tt, mkWorld (<[l := v]> (heap w)) (server w) (trace w)).

Definition alloc (v : value) : M loc :=
  fun w =>
    let l := fresh (dom (heap w)) in
    (Returned l, mkWorld (<[l := v]> (heap w)) (server w) (trace w)).

(** [await new Promise(resolve => setTimeout(resolve, ms))] *)
Definition sleep (ms : Z) : M unit := emit (SetTimeout ms).
End Monad.

Arguments M Srv A : clear implicits.

Declare Scope js_scope.
Delimit Scope js_scope with js.
Notation "'let*' x ':=' m 'in' k" := (bind m (fun x => k))
  (at level 10, x name, m at level 100, k at level 200) : js_scope.
Notation "m ;;; k" := (bind m (fun _ => k))
  (at level 100, k at level 200, right associativity) : js_scope.
Local Open Scope js_scope.

(** ** Interfaces *)

Record IResourceIdentifier : Type := mkId {
  namespace : value;
  name : value          (* [VUndefined] when absent *)
}.

Definition IProjectFilter := IResourceIdentifier.

Record IFunctionFilter : Type := mkFunctionFilter {
  filter_id :> IResourceIdentifier;
  projectName : value   (* [VUndefined] when absent *)
}.

Record IInvokeOptions : Type := mkInvokeOptions {
  method : string;
  logLevel : value;
  path : value;
  headers : value;
  body : value;
  via : value
}.

Record InvokeResult : Type := mkInvokeResult {
  statusCode : Z;
  result_headers : value;
  result_body : value
}.

(** [new ProjectConfig()] and [new FunctionConfig()]: the constructors
    define only the nested records (field declarations without an
    initialiser define nothing). *)
Definition ResourceMeta : list (string * value) := [].
Definition ProjectSpec : list (string * value) := [].
Definition Build : list (string * value) := [].
Definition FunctionSpec : list (string * value) := [("build", VObject Build)].
Definition FunctionStatus : list (string * value) := [].

Definition ProjectConfig : list (string * value) :=
  [("metadata", VObject ResourceMeta); ("spec", VObject ProjectSpec)].

Definition FunctionConfig : list (string * value) :=
  [("metadata", VObject ResourceMeta); ("spec", VObject FunctionSpec);
   ("status", VObject FunctionStatus)].

Record IPlatform (Srv : Type) : Type := mkPlatform {
  createProject : value -> M Srv value;
  getProjects : IProjectFilter -> M Srv (list value);
  deleteProject : IResourceIdentifier -> M Srv unit;
  createFunction : string -> loc -> M Srv value;
  invokeFunction : IResourceIdentifier -> IInvokeOptions -> M Srv InvokeResult;
  getFunctions : IFunctionFilter -> M Srv (list value);
  deleteFunction : IFunctionFilter -> M Srv unit
}.

Arguments createProject {Srv} i.
Arguments getProjects {Srv} i.
Arguments deleteProject {Srv} i.
Arguments createFunction {Srv} i.
Arguments invokeFunction {Srv} i.
Arguments getFunctions {Srv} i.
Arguments deleteFunction {Srv} i.

(** ** The platform client *)

Module Dashboard.
Section Client.
Context {Srv : Type}.

(** The remote dashboard: how it answers a request in a given state. *)
Variable serve : Srv -> Request -> Reply * Srv.

(** The text [JSON.stringify] yields for a value other than
    [undefined]. *)
Variable JSON_text : value -> string.

Definition JSON_stringify (v : value) : value :=
  match v with
  | VUndefined => VUndefined
  | _ => VString (JSON_text v)
  end.

Record t : Type := new { url : string }.

(** Handing a request to axios: it is recorded, the dashboard answers
    and moves on, and a rejection is thrown at the [await]. *)
Definition dispatch (r : Request) : M Srv Response :=
  fun w =>
    let '(reply, s') := serve (server w) r in
    let w' := mkWorld (heap w) s' (trace w ++ [Http r]) in
    match reply with
    | Fulfilled response => (Returned response, w')
    | Rejected reason => (Threw (AxiosFailure reason), w')
    end.

(** [axios[name](url, ...args)] *)
Definition axios (name : string) (url : string) (args : list value) : M Srv Response :=
  match axios_member name with
  | Some v => dispatch (verb_request v url args)
  | None => fun w => (Unmodelled, w)
  end.

Definition createProject (this : t) (projectConfig : value) : M Srv value :=
  let body := JSON_stringify projectConfig in
  let* result := axios "post" (url this +:+ "/api/projects") [body] in
  ret (resp_data result).

Definition getResources (this : t) (filter : IResourceIdentifier)
    (resourceName : string) (resourceClass : list (string * value))
    (headers : value) : M Srv (list value) :=
  let headers := if truthy headers then headers else VObject [] in
  let* headers :=
    lift (set_prop headers ("x-nuclio-" +:+ resourceName +:+ "-namespace")
            (namespace filter)) in
  let path := "/api/" +:+ resourceName +:+ "s" in
  let path :=
    if negb (is_undefined (name filter))
    then path +:+ "/" +:+ ToString (name filter)
    else path in
  let resources : list value := [] in
  let* response :=
    axios "get" (url this +:+ path) [VObject [("headers", headers)]] in
  let responseResources :=
    if negb (is_undefined (name filter))
    then VObject [("single", resp_data response)]
    else resp_data response in
  let* names := lift (Object_keys responseResources) in
  ret (fold_left
         (fun resources name =>
            let resource := Object_assign resourceClass (prop_of responseResources name) in
            resources ++ [VObject resource])
         names resources).

Definition getProjects (this : t) (filter : IProjectFilter) : M Srv (list value) :=
  getResources this filter "project" ProjectConfig VUndefined.

Definition getFunctions (this : t) (filter : IFunctionFilter) : M Srv (list value) :=
  let headers := VObject [] in
  let* headers :=
    if negb (is_undefined (projectName filter))
    then lift (set_prop headers "x-nuclio-project-name" (projectName filter))
    else ret headers in
  getResources this filter "function" FunctionConfig headers.

Definition deleteResource (this : t) (id : IResourceIdentifier)
    (resourceName : string) (resourceClass : list (string * value)) : M Srv unit :=
  if is_undefined (name id)
  then throw (JsError "Resource name must be specified in delete")
  else
    let resource := VObject resourceClass in
    let* resource := lift (set_path resource ["metadata"] "name" (name id)) in
    let* resource := lift (set_path resource ["metadata"] "namespace" (namespace id)) in
    let* _ :=
      axios "delete" (url this +:+ "/api/" +:+ resourceName +:+ "s")
        [VObject [("data", JSON_stringify resource)]] in
    ret tt.

Definition deleteProject (this : t) (id : IResourceIdentifier) : M Srv unit :=
  deleteResource this id "project" ProjectConfig.

Definition deleteFunction (this : t) (id : IFunctionFilter) : M Srv unit :=
  deleteResource this id "function" FunctionConfig.

Definition retryIntervalMs : Z := 1000.
Definition maxRetries : nat := 60.

(** One read of [functionConfig.metadata.name] and [.namespace] from the
    caller's object. *)
Definition pollFilter (functionConfig : loc) : M Srv IFunctionFilter :=
  let* cfg := deref functionConfig in
  let* metadata := lift (get_prop cfg "metadata") in
  let* name := lift (get_prop metadata "name") in
  let* namespace := lift (get_prop metadata "namespace") in
  ret (mkFunctionFilter (mkId namespace name) VUndefined).

(** The [try]/[catch] inside the loop. *)
Definition attempt (this : t) (functionConfig : loc) : M Srv (list value) :=
  try_catch
    (let* filter := pollFilter functionConfig in
     getFunctions this filter)
    (fun e => ret []).

(** The [for] loop of [createFunction], with [remaining] standing for
    [maxRetries - retryIdx]: the loop ends when it reaches 0. *)
Fixpoint poll (this : t) (functionConfig : loc) (remaining : nat) : M Srv value :=
  match remaining with
  | O => ret VUndefined
  | S remaining' =>
      let* createdFunctionConfig := attempt this functionConfig in
      let continue := sleep retryIntervalMs ;;; poll this functionConfig remaining' in
      match createdFunctionConfig with
      | [] => continue
      | first :: _ =>
          let* status := lift (get_prop first "status") in
          let* state := lift (get_prop status "state") in
          if is_string state "ready" then ret first
          else
            let* status := lift (get_prop first "status") in
            let* state := lift (get_prop status "state") in
            if is_string state "error" then
              let* status := lift (get_prop first "status") in
              let* message := lift (get_prop status "message") in
              throw (JsError ("Creation failed: " +:+ ToString message))
            else continue
      end
  end.

Definition project_label : string := "nuclio.io/project-name".

Definition createFunction (this : t) (projectName : string) (functionConfig : loc)
  : M Srv value :=
  (* functionConfig.metadata.labels = functionConfig.metadata.labels ? ... : {} *)
  let* cfg := deref functionConfig in
  let* metadata := lift (get_prop cfg "metadata") in
  let* labels := lift (get_prop metadata "labels") in
  let labels := if truthy labels then labels else VObject [] in
  let* cfg := lift (set_path cfg ["metadata"] "labels" labels) in
  store functionConfig cfg ;;;
  (* functionConfig.metadata.labels['nuclio.io/project-name'] = projectName *)
  let* cfg := deref functionConfig in
  let* cfg :=
    lift (set_path cfg ["metadata"; "labels"] project_label (VString projectName)) in
  store functionConfig cfg ;;;
  let* cfg := deref functionConfig in
  let body := JSON_stringify cfg in
  let* _ := axios "post" (url this +:+ "/api/functions") [body] in
  poll this functionConfig maxRetries.

(** [options] is taken by value: the source extends the caller's
    [options.headers] object in place, which nothing below observes. *)
Definition invokeFunction (this : t) (id : IResourceIdentifier)
    (options : IInvokeOptions) : M Srv InvokeResult :=
  if is_undefined (name id)
  then throw (JsError "Function name must be specified in invoke")
  else
    let headers := if truthy (headers options) then headers options else VObject [] in
    let* headers := lift (set_prop headers "x-nuclio-function-name" (name id)) in
    let* headers := lift (set_prop headers "x-nuclio-function-namespace" (namespace id)) in
    let* headers :=
      lift (set_prop headers "x-nuclio-invoke-via"
              (if truthy (via options) then via options else VString "external-ip")) in
    let* headers :=
      if negb (is_undefined (path options))
      then lift (set_prop headers "x-nuclio-path" (path options))
      else ret headers in
    let url := url this +:+ "/api/function_invocations" in
    let axiosMethod := axios (method options) in
    let* response :=
      if existsb (String.eqb (method options)) ["post"; "put"; "path"]
      then axiosMethod url [body options; VObject [("headers", headers)]]
      else axiosMethod url [VObject [("headers", headers)]] in
    let invokeResult :=
      mkInvokeResult (resp_status response) (resp_headers response) (resp_data response) in
    ret invokeResult.

(** [class Dashboard implements IPlatform] *)
Definition platform (this : t) : IPlatform Srv :=
  mkPlatform Srv
    (createProject this) (getProjects this) (deleteProject this)
    (createFunction this) (invokeFunction this)
    (getFunctions this) (deleteFunction this).
End Client.
End Dashboard.

(** ** The deploy command *)

Module Deploy.

(** [s.split(sep)] for a one-character separator. *)
Fixpoint split (sep : ascii) (s : string) : list string :=
  match s with
  | EmptyString => [EmptyString]
  | String c rest =>
      if Ascii.eqb c sep then EmptyString :: split sep rest
      else
        match split sep rest with
        | segment :: segments => String c segment :: segments
        | [] => [String c EmptyString]
        end
  end.

(** [filename.split('.').pop()] *)
Definition getExtension (filename : string) : string :=
  List.last (split "." filename) EmptyString.

Record LocalFunction : Type := mkLocalFunction {
  name : string;
  namespace : string;
  path : string
}.

(** Modelled from the spec: [FunctionTreeItem] is declared outside the
    files at hand; the deploy command reads from it the function's
    directory, the platform client and the enclosing project's name. *)
Record FunctionTreeItem (Srv : Type) : Type := mkFunctionTreeItem {
  functionConfig : LocalFunction;
  dashboard : IPlatform Srv;
  projectName : string
}.

Arguments functionConfig {Srv} f.
Arguments dashboard {Srv} f.
Arguments projectName {Srv} f.

Section Command.
Context {Srv : Type}.

(** The file system, as [fs-extra] shows it ([None]: the call throws),
    [path.join] and [base64.encode] ([None]: it throws). *)
Variable readdirSync : string -> option (list string).
Variable readJsonSync : string -> option value.
Variable readFileSync : string -> option string.
Variable path_join : string -> string -> string.
Variable base64_encode : string -> option string.

(** The [forEach] callback, acting on the pair of captured variables
    [(configFile, codeFile)].  The callback is [async]: an exception
    inside it rejects a promise nobody awaits and leaves both variables
    as they were. *)
Definition visit (dir : string) (captured : value * value) (file : string)
  : value * value :=
  let '(configFile, codeFile) := captured in
  let ext := getExtension file in
  if String.eqb ext "yaml" then
    match readJsonSync (path_join dir file) with
    | Some json => (json, codeFile)
    | None => captured
    end
  else
    match readFileSync (path_join dir file) with
    | Some text =>
        match base64_encode text with
        | Some encoded => (configFile, VString encoded)
        | None => captured
        end
    | None => captured
    end.

Definition deploy (functionTreeItem : FunctionTreeItem Srv) : M Srv unit :=
  let configFile := VUndefined in
  let codeFile := VUndefined in
  emit (AppendLine "Reading files from directory") ;;;
  let dir := path (functionConfig functionTreeItem) in
  let* files :=
    lift (match readdirSync dir with
          | Some files => Returned files
          | None => Threw FsFailure
          end) in
  let '(configFile, codeFile) := fold_left (visit dir) files (configFile, codeFile) in
  let* configFile :=
    lift (set_path configFile ["spec"; "build"] "functionSourceCode" codeFile) in
  emit (AppendLine "Deploying function...") ;;;
  let* reference := alloc configFile in
  let* _ :=
    createFunction (dashboard functionTreeItem) (projectName functionTreeItem) reference in
  emit (ShowInformationMessage "Function deployed successfully") ;;;
  emit (AppendLine "Function deployed successfully").
End Command.
End Deploy.

(** ** Vocabulary of the statements *)

(** The object reached from [v] along [path] when every holder on the way,
    and the target, is an object. *)
Fixpoint object_at (v : value) (path : list string) : option (list (string * value)) :=
  match v with
  | VObject props =>
      match path with
      | [] => Some props
      | p :: rest =>
          match lookup_prop p props with
          | Some child => object_at child rest
          | None => None
          end
      end
  | _ => None
  end.

(** [v.p1.....pn], read without raising. *)
Definition at_path (v : value) (path : list string) : value :=
  fold_left prop_of path v.

(** A function configuration as the type [FunctionConfig] describes it: an
    object with an object [metadata] whose [labels] are missing (or falsy)
    or an object.  Yields the three property tables. *)
Definition config_parts (cfg : value)
  : option (list (string * value) * list (string * value) * list (string * value)) :=
  match cfg with
  | VObject props =>
      match lookup_prop "metadata" props with
      | Some (VObject metadata) =>
          let labels := default VUndefined (lookup_prop "labels" metadata) in
          if truthy labels then
            match labels with
            | VObject ls => Some (props, metadata, ls)
            | _ => None
            end
          else Some (props, metadata, [])
      | _ => None
      end
  | _ => None
  end.

(** The configuration with the project label written into its labels. *)
Definition with_project (projectName : string)
    (props metadata labels : list (string * value)) : value :=
  VObject (store_prop "metadata"
    (VObject (store_prop "labels"
      (VObject (store_prop Dashboard.project_label (VString projectName) labels))
      metadata))
    props).

(** The GET request [getResources] sends. *)
Definition read_request (this : Dashboard.t) (resourceName : string)
    (filter : IResourceIdentifier) (extra : list (string * value)) : Request :=
  mkRequest GET
    (Dashboard.url this +:+
       (if is_undefined (name filter)
        then "/api/" +:+ resourceName +:+ "s"
        else ("/api/" +:+ resourceName +:+ "s") +:+ "/" +:+ ToString (name filter)))
    VUndefined
    (VObject (store_prop ("x-nuclio-" +:+ resourceName +:+ "-namespace")
                (namespace filter) extra)).

(** The headers [getFunctions] starts from. *)
Definition project_header (filter : IFunctionFilter) : list (string * value) :=
  if is_undefined (projectName filter) then []
  else [("x-nuclio-project-name", projectName filter)].

(** The records [getResources] builds from a response payload. *)
Definition resources_of (resourceClass : list (string * value)) (named : bool)
    (data : value) : outcome (list value) :=
  let responseResources := if named then VObject [("single", data)] else data in
  obind (Object_keys responseResources) (fun names =>
    Returned (map (fun name =>
                     VObject (Object_assign resourceClass (prop_of responseResources name)))
                  names)).

(** The headers [invokeFunction] sends, [given] being the caller's. *)
Definition invoke_headers (id : IResourceIdentifier) (options : IInvokeOptions)
    (given : list (string * value)) : list (string * value) :=
  let headers := store_prop "x-nuclio-function-name" (name id) given in
  let headers := store_prop "x-nuclio-function-namespace" (namespace id) headers in
  let headers :=
    store_prop "x-nuclio-invoke-via"
      (if truthy (via options) then via options else VString "external-ip") headers in
  if is_undefined (path options) then headers
  else store_prop "x-nuclio-path" (path options) headers.

Definition invocation_url (this : Dashboard.t) : string :=
  Dashboard.url this +:+ "/api/function_invocations".

(** The transport response wrapped into an [InvokeResult]. *)
Definition wrapped {Srv} (result : outcome Response * World Srv)
  : outcome InvokeResult * World Srv :=
  (match fst result with
   | Returned response =>
       Returned (mkInvokeResult (resp_status response) (resp_headers response)
                   (resp_data response))
   | Threw e => Threw e
   | Unmodelled => Unmodelled
   end, snd result).

(** The identity the readiness poll asks for. *)
Definition poll_filter (cfg : value) : IFunctionFilter :=
  mkFunctionFilter
    (mkId (at_path cfg ["metadata"; "namespace"]) (at_path cfg ["metadata"; "name"]))
    VUndefined.

Definition poll_request (this : Dashboard.t) (cfg : value) : Request :=
  read_request this "function" (poll_filter cfg) [].

Definition create_request (this : Dashboard.t) (JSON_text : value -> string)
    (cfg : value) : Request :=
  mkRequest POST (Dashboard.url this +:+ "/api/functions") (VString (JSON_text cfg)) VUndefined.

(** What one polling attempt holds in [createdFunctionConfig] after its
    [try]/[catch], given the dashboard's reply. *)
Definition seen (cfg : value) (reply : Reply) : list value :=
  match reply with
  | Rejected _ => []
  | Fulfilled response =>
      match resources_of FunctionConfig
              (negb (is_undefined (name (poll_filter cfg)))) (resp_data response) with
      | Returned resources => resources
      | _ => []
      end
  end.

Definition state_of (f : value) : outcome value :=
  obind (get_prop f "status") (fun status => get_prop status "state").

Definition message_of (f : value) : outcome value :=
  obind (get_prop f "status") (fun status => get_prop status "message").

(** Nothing found, or a function whose state reads as something other
    than ["ready"] and ["error"]. *)
Definition nonterminal (found : list value) : bool :=
  match found with
  | [] => true
  | f :: _ =>
      match state_of f with
      | Returned state => negb (is_string state "ready") && negb (is_string state "error")
      | _ => false
      end
  end.

(** One unsuccessful attempt in the trace: the poll, then the wait. *)
Definition round (request : Request) : list Event :=
  [Http request; SetTimeout Dashboard.retryIntervalMs].

Definition rounds (request : Request) (n : nat) : list Event :=
  concat (repeat (round request) n).

Definition is_poll (e : Event) : bool :=
  match e with
  | Http r => match req_verb r with GET => true | _ => false end
  | _ => false
  end.

(** Number of polling calls in a stretch of trace. *)
Definition polling_calls (events : list Event) : nat :=
  length (filter (fun e => is_poll e = true) events).

Section Backend.
Context {Srv : Type} (serve : Srv -> Request -> Reply * Srv).

Definition answer (request : Request) (s : Srv) : Reply := fst (serve s request).
Definition advance (request : Request) (s : Srv) : Srv := snd (serve s request).

(** The dashboard's state when attempt number [i] (from 0) is made,
    [s] being its state at the first attempt. *)
Definition at_attempt (request : Request) (i : nat) (s : Srv) : Srv :=
  Nat.iter i (advance request) s.

(** The world once [request] has been handed to axios in [w]. *)
Definition after (request : Request) (w : World Srv) : World Srv :=
  mkWorld (heap w) (advance request (server w)) (trace w ++ [Http request]).

(** The world a call sees once the caller's object at [l] holds [v]. *)
Definition holding (l : loc) (v : value) (w : World Srv) : World Srv :=
  mkWorld (<[l := v]> (heap w)) (server w) (trace w).

Definition logged (events : list Event) (w : World Srv) : World Srv :=
  mkWorld (heap w) (server w) (trace w ++ events).

(** The world after an unsuccessful attempt and its wait. *)
Definition waited (request : Request) (w : World Srv) : World Srv :=
  logged [SetTimeout Dashboard.retryIntervalMs] (after request w).

(** A computation that leaves the caller's objects alone and only ever
    adds to the trace. *)
Definition orderly {A} (m : M Srv A) : Prop :=
  forall w,
    heap (snd (m w)) = heap w /\
    exists later, trace (snd (m w)) = trace w ++ later.

(** What attempt number [j] finds, the dashboard being in state [s] at
    the first attempt. *)
Definition polled (this : Dashboard.t) (cfg : value) (s : Srv) (j : nat) : list value :=
  seen cfg (answer (poll_request this cfg) (at_attempt (poll_request this cfg) j s)).

(** The dashboard's state once it has taken the create request. *)
Definition created (request : Request) (w : World Srv) : Srv :=
  advance request (server w).

(** The events a call added to the trace. *)
Definition since (w w' : World Srv) : list Event :=
  drop (length (trace w)) (trace w').
End Backend.

(** The records built from a map-shaped payload, entry by entry. *)
Definition from_map (resourceClass : list (string * value))
    (entries : list (string * value)) : list value :=
  map (fun entry => VObject (Object_assign resourceClass (snd entry))) entries.

Definition distinct_keys (v : value) : Prop := NoDup (map fst (own_props v)).

(** Every member of [entry] is a member of [resource], with the same
    value. *)
Definition carries (resource entry : value) : Prop :=
  forall field x,
    lookup_prop field (own_props entry) = Some x ->
    lookup_prop field (own_props resource) = Some x.

(** [record] is what [Object.assign(new resourceClass(), payload)]
    leaves: under every name the payload's member when it has one, and
    otherwise what the constructor defined. *)
Definition assigned (resourceClass : list (string * value)) (payload : value)
    (record : list (string * value)) : Prop :=
  forall field,
    lookup_prop field record
    = match lookup_prop field (own_props payload) with
      | Some x => Some x
      | None => lookup_prop field resourceClass
      end.

(** A reply that reports a terminal state: its payload has [status.state]
    equal to ["ready"] or ["error"]. *)
Definition reports_terminal (reply : Reply) : bool :=
  match reply with
  | Fulfilled response =>
      let state := at_path (resp_data response) ["status"; "state"] in
      is_string state "ready" || is_string state "error"
  | Rejected _ => false
  end.

(** ** Test doubles *)

(** A serialiser to run the examples with: quotes and backslashes are
    escaped, [undefined] members are dropped from objects and become
    [null] in arrays. *)
Definition double_quote : ascii := ascii_of_nat 34.

Fixpoint escape (s : string) : string :=
  match s with
  | EmptyString => EmptyString
  | String c rest =>
      if Ascii.eqb c double_quote then String "\" (String double_quote (escape rest))
      else if Ascii.eqb c "\" then String "\" (String "\" (escape rest))
      else String c (escape rest)
  end.

Definition quote (s : string) : string :=
  String double_quote (escape s +:+ String double_quote EmptyString).

Fixpoint json_text (v : value) : string :=
  match v with
  | VUndefined | VNull => "null"
  | VBool true => "true"
  | VBool false => "false"
  | VNumber z => string_of_Z z
  | VString s => quote s
  | VArray elems =>
      "[" +:+
      (fix items (l : list value) : string :=
         match l with
         | [] => ""
         | [e] => json_text e
         | e :: rest => json_text e +:+ "," +:+ items rest
         end) elems +:+ "]"
  | VObject props =>
      "{" +:+
      (fix members (first : bool) (l : list (string * value)) : string :=
         match l with
         | [] => ""
         | (k, VUndefined) :: rest => members first rest
         | (k, x) :: rest =>
             (if first then "" else ",") +:+ quote k +:+ ":" +:+ json_text x
             +:+ members false rest
         end) true props +:+ "}"
  end.

(** A dashboard that gives the same reply to everything. *)
Definition serve_const (reply : Reply) : unit -> Request -> Reply * unit :=
  fun _ _ => (reply, tt).

(** A dashboard that plays a script, one reply per request, then keeps
    rejecting; its state is the number of requests served. *)
Definition serve_script (script : list Reply) : nat -> Request -> Reply * nat :=
  fun served _ => (default (Rejected VNull) (script !! served), S served).

Definition ok (data : value) : Reply := Fulfilled (mkResponse 200 (VObject []) data).

Definition not_found : Reply := Rejected (VString "Request failed with status code 404").

Definition function_in_state (state : string) (message : string) : value :=
  VObject [("metadata", VObject [("name", VString "hello"); ("namespace", VString "nuclio")]);
           ("status", VObject [("state", VString state); ("message", VString message)])].

Definition local : Dashboard.t := Dashboard.new "http://localhost:8070".

Definition accepted (data : value) : Response := mkResponse 200 (VObject []) data.

Definition hello_metadata : list (string * value) :=
  [("name", VString "hello"); ("namespace", VString "nuclio")].

Definition hello_props : list (string * value) :=
  [("metadata", VObject hello_metadata);
   ("spec", VObject [("runtime", VString "python"); ("build", VObject [])])].

Definition hello_config : value := VObject hello_props.

Definition two_functions : list (string * value) :=
  [("hello", function_in_state "ready" ""); ("bye", function_in_state "building" "")].

Definition world0 {Srv} (s : Srv) : World Srv := mkWorld {[ 0 := hello_config ]} s [].

Definition hello : IResourceIdentifier := mkId (VString "nuclio") (VString "hello").

Definition anonymous : IResourceIdentifier := mkId (VString "nuclio") VUndefined.

Definition invoke_with (verb_name : string) : IInvokeOptions :=
  mkInvokeOptions verb_name VUndefined VUndefined VUndefined (VString "payload") VUndefined.

(** Base64 of a string of bytes, for the function directory below. *)
Definition base64_alphabet : string :=
  "ABCDEFGHIJKLMNOPQRSTUVWXYZabcdefghijklmnopqrstuvwxyz0123456789+/".

Definition sextet (n : N) : string :=
  match String.get (N.to_nat (n mod 64)) base64_alphabet with
  | Some c => String c EmptyString
  | None => EmptyString
  end.

Fixpoint base64_bytes (bytes : list N) : string :=
  match bytes with
  | [] => ""
  | [a] =>
      let n := (a * 65536)%N in
      sextet (n / 262144) +:+ sextet (n / 4096) +:+ "=="
  | [a; b] =>
      let n := (a * 65536 + b * 256)%N in
      sextet (n / 262144) +:+ sextet (n / 4096) +:+ sextet (n / 64) +:+ "="
  | a :: b :: c :: rest =>
      let n := (a * 65536 + b * 256 + c)%N in
      sextet (n / 262144) +:+ sextet (n / 4096) +:+ sextet (n / 64) +:+ sextet n
      +:+ base64_bytes rest
  end.

Definition base64_of (text : string) : option string :=
  Some (base64_bytes (map N_of_ascii (list_ascii_of_string text))).

(** A function directory with [func.yaml] and [handler.py]. *)
Definition hello_dir : string := "/work/hello".

Definition hello_source : string := "def handler(context, event): return 'hi'".

Definition join_with_slash (dir file : string) : string := dir +:+ "/" +:+ file.

Definition hello_listing (dir : string) : option (list string) :=
  if String.eqb dir hello_dir then Some ["func.yaml"; "handler.py"] else None.

Definition hello_json (file : string) : option value :=
  if String.eqb file "/work/hello/func.yaml" then Some hello_config else None.

Definition hello_text (file : string) : option string :=
  if String.eqb file "/work/hello/handler.py" then Some hello_source else None.

Definition hello_item {Srv} (serve : Srv -> Request -> Reply * Srv) : Deploy.FunctionTreeItem Srv :=
  Deploy.mkFunctionTreeItem Srv
    (Deploy.mkLocalFunction "hello" "nuclio" hello_dir)
    (Dashboard.platform serve json_text local)
    "proj".

(** The configuration of the function directory once its source has
    been written into it. *)
Definition hello_deployed : value :=
  VObject [("metadata", VObject hello_metadata);
           ("spec",
            VObject [("runtime", VString "python");
                     ("build",
                      VObject [("functionSourceCode",
                                VString "ZGVmIGhhbmRsZXIoY29udGV4dCwgZXZlbnQpOiByZXR1cm4gJ2hpJw==")])])].

(** A world whose only object has no metadata. *)
Definition bare_world : World nat := mkWorld {[ 0 := VObject [] ]} 0 [].

Definition hello_labelled : value := with_project "proj" hello_props hello_metadata [].

(** A string without a dot. *)
Fixpoint dotless (s : string) : bool :=
  match s with
  | EmptyString => true
  | String c rest => negb (Ascii.eqb c ".") && dotless rest
  end.

Definition is_request (e : Event) : bool :=
  match e with
  | Http _ => true
  | _ => false
  end.

(** Number of requests in a stretch of trace. *)
Definition requests (events : list Event) : nat :=
  length (filter (fun e => is_request e = true) events).

(** A payload that names a function but gives it no status. *)
Definition statusless : value :=
  VObject [("metadata", VObject hello_metadata); ("status", VNull)].

(** A [func.yaml] written in YAML: [readJsonSync] does not parse it. *)
Definition yaml_syntax (file : string) : option value := None.

(** A [func.yaml] that parses but has no [spec]. *)
Definition specless_json (file : string) : option value :=
  if String.eqb file "/work/hello/func.yaml"
  then Some (VObject [("metadata", VObject hello_metadata)])
  else None.

(** A source text with a character that [base64.encode] refuses. *)
Definition refuses_text (text : string) : option string := None.

(** ** Property tables *)

Lemma lookup_prop_app (k : string) (props more : list (string * value)) :
  lookup_prop k (props ++ more)
  = match lookup_prop k props with
    | Some x => Some x
    | None => lookup_prop k more
    end.
Proof.
  induction props as [|[k' v] rest IH]; simpl; auto.
  destruct (String.eqb k k'); auto.
Qed.

Lemma lookup_replace_eq (k : string) (x y : value) (props : list (string * value)) :
  lookup_prop k props = Some y ->
  lookup_prop k (replace_prop k x props) = Some x.
Proof.
  induction props as [|[k' v] rest IH]; simpl; [discriminate|].
  destruct (String.eqb k k') eqn:E; simpl; rewrite E; auto.
Qed.

Lemma lookup_replace_ne (k k' : string) (x : value) (props : list (string * value)) :
  k <> k' -> lookup_prop k' (replace_prop k x props) = lookup_prop k' props.
Proof.
  intros Hne. induction props as [|[k0 v] rest IH]; simpl; auto.
  destruct (String.eqb k k0) eqn:E; simpl.
  - apply String.eqb_eq in E. subst k0.
    destruct (String.eqb k' k) eqn:E'; auto.
    apply String.eqb_eq in E'. congruence.
  - now rewrite IH.
Qed.

Lemma lookup_insert_index_eq (n : N) (k : string) (x : value) (props : list (string * value)) :
  lookup_prop k props = None ->
  lookup_prop k (insert_index n k x props) = Some x.
Proof.
  induction props as [|[k' v] rest IH]; simpl.
  - now rewrite String.eqb_refl.
  - destruct (String.eqb k k') eqn:E; [discriminate|]. intros Hrest.
    destruct (array_index k') as [n'|]; [destruct (n' <? n)%N|];
      simpl; rewrite ?E, ?String.eqb_refl; auto.
Qed.

Lemma lookup_insert_index_ne (n : N) (k k' : string) (x : value) (props : list (string * value)) :
  k <> k' -> lookup_prop k' (insert_index n k x props) = lookup_prop k' props.
Proof.
  intros Hne.
  assert (Hk : String.eqb k' k = false) by (apply String.eqb_neq; congruence).
  induction props as [|[k0 v] rest IH]; simpl.
  - now rewrite Hk.
  - destruct (array_index k0) as [n'|]; [destruct (n' <? n)%N|];
      simpl; rewrite ?Hk; auto.
    now rewrite IH.
Qed.

Lemma lookup_store_eq (k : string) (x : value) (props : list (string * value)) :
  lookup_prop k (store_prop k x props) = Some x.
Proof.
  unfold store_prop. destruct (lookup_prop k props) as [y|] eqn:Hk.
  - eapply lookup_replace_eq; eauto.
  - destruct (array_index k) as [n|].
    + now apply lookup_insert_index_eq.
    + rewrite lookup_prop_app, Hk. simpl. now rewrite String.eqb_refl.
Qed.

Lemma lookup_store_ne (k k' : string) (x : value) (props : list (string * value)) :
  k <> k' -> lookup_prop k' (store_prop k x props) = lookup_prop k' props.
Proof.
  intros Hne. unfold store_prop. destruct (lookup_prop k props) as [y|].
  - now apply lookup_replace_ne.
  - destruct (array_index k) as [n|].
    + now apply lookup_insert_index_ne.
    + rewrite lookup_prop_app. destruct (lookup_prop k' props); auto.
      simpl. destruct (String.eqb k' k) eqn:E; auto.
      apply String.eqb_eq in E. congruence.
Qed.

Lemma replace_replace (k : string) (x y : value) (props : list (string * value)) :
  replace_prop k x (replace_prop k y props) = replace_prop k x props.
Proof.
  induction props as [|[k' v] rest IH]; simpl; auto.
  destruct (String.eqb k k') eqn:E; simpl; rewrite E; auto.
  now rewrite IH.
Qed.

Lemma replace_insert (n : N) (k : string) (x y : value) (props : list (string * value)) :
  lookup_prop k props = None ->
  replace_prop k x (insert_index n k y props) = insert_index n k x props.
Proof.
  induction props as [|[k' v] rest IH]; simpl.
  - now rewrite String.eqb_refl.
  - destruct (String.eqb k k') eqn:E; [discriminate|]. intros Hrest.
    destruct (array_index k') as [n'|]; [destruct (n' <? n)%N|];
      simpl; rewrite ?E, ?String.eqb_refl; auto.
    now rewrite IH.
Qed.

Lemma replace_last (k : string) (x y : value) (props : list (string * value)) :
  lookup_prop k props = None ->
  replace_prop k x (props ++ [(k, y)]) = props ++ [(k, x)].
Proof.
  induction props as [|[k' v] rest IH]; simpl.
  - now rewrite String.eqb_refl.
  - destruct (String.eqb k k') eqn:E; [discriminate|]. intros Hrest.
    now rewrite IH.
Qed.

Lemma store_store (k : string) (x y : value) (props : list (string * value)) :
  store_prop k x (store_prop k y props) = store_prop k x props.
Proof.
  unfold store_prop at 1. rewrite lookup_store_eq.
  unfold store_prop. destruct (lookup_prop k props) as [z|] eqn:Hk.
  - apply replace_replace.
  - destruct (array_index k) as [n|].
    + now apply replace_insert.
    + now apply replace_last.
Qed.

Lemma store_keys (k : string) (x y : value) (props : list (string * value)) :
  lookup_prop k props = Some y ->
  map fst (store_prop k x props) = map fst props.
Proof.
  intros Hk. unfold store_prop. rewrite Hk. clear Hk y.
  induction props as [|[k' v] rest IH]; simpl; auto.
  destruct (String.eqb k k') eqn:E; simpl; auto.
  now rewrite IH.
Qed.

Lemma lookup_absent (k : string) (props : list (string * value)) :
  k ∉ map fst props -> lookup_prop k props = None.
Proof.
  induction props as [|[k' v] rest IH]; simpl; auto.
  intros H. apply not_elem_of_cons in H as [Hne Hrest].
  destruct (String.eqb k k') eqn:E.
  - apply String.eqb_eq in E. contradiction.
  - now apply IH.
Qed.

Lemma lookup_entry (i : nat) (k : string) (v : value) (props : list (string * value)) :
  NoDup (map fst props) ->
  props !! i = Some (k, v) ->
  lookup_prop k props = Some v.
Proof.
  revert i. induction props as [|[k' v'] rest IH]; intros i Hnd Hi.
  - destruct i; discriminate.
  - cbn [map fst] in Hnd. apply NoDup_cons in Hnd as [Hnotin Hnd'].
    destruct i as [|i]; simpl in *.
    + inversion Hi; subst. now rewrite String.eqb_refl.
    + destruct (String.eqb k k') eqn:E.
      * apply String.eqb_eq in E. subst k'. exfalso. apply Hnotin.
        apply (list_elem_of_fmap_2 fst rest (k, v)).
        eapply list_elem_of_lookup_2; eauto.
      * eapply IH; eauto.
Qed.

(** [Object.assign] leaves on the target exactly the source's members,
    and what the target had under other names. *)
Lemma assign_lookup (field : string) (source target : list (string * value)) :
  NoDup (map fst source) ->
  lookup_prop field
    (fold_left (fun acc kv => store_prop (fst kv) (snd kv) acc) source target)
  = match lookup_prop field source with
    | Some x => Some x
    | None => lookup_prop field target
    end.
Proof.
  revert target. induction source as [|[k v] rest IH]; intros target Hnd; simpl; auto.
  cbn [map fst] in Hnd. apply NoDup_cons in Hnd as [Hnotin Hnd'].
  rewrite IH by assumption.
  destruct (String.eqb field k) eqn:E.
  - apply String.eqb_eq in E. subst k.
    rewrite (lookup_absent _ _ Hnotin). apply lookup_store_eq.
  - destruct (lookup_prop field rest); auto.
    apply lookup_store_ne. intros ->. now rewrite String.eqb_refl in E.
Qed.

Lemma push_all {A B} (g : A -> B) (names : list A) (start : list B) :
  fold_left (fun acc n => acc ++ [g n]) names start = start ++ map g names.
Proof.
  revert start. induction names as [|n rest IH]; intros start; simpl.
  - now rewrite app_nil_r.
  - rewrite IH. now rewrite <- app_assoc.
Qed.

(** ** How the client runs *)

Section Runs.
Context {Srv : Type}.
Variable serve : Srv -> Request -> Reply * Srv.
Variable JSON_text : value -> string.

Lemma bind_eq {A B} (m : M Srv A) (k : A -> M Srv B) (w w' : World Srv) (r : outcome A) :
  m w = (r, w') ->
  bind m k w =
  match r with
  | Returned a => k a w'
  | Threw e => (Threw e, w')
  | Unmodelled => (Unmodelled, w')
  end.
Proof. intros H. unfold bind. rewrite H. destruct r; reflexivity. Qed.

Lemma dispatch_run (request : Request) (w : World Srv) :
  Dashboard.dispatch serve request w =
  (match answer serve request (server w) with
   | Fulfilled response => Returned response
   | Rejected reason => Threw (AxiosFailure reason)
   end, after serve request w).
Proof.
  unfold Dashboard.dispatch, after, answer, advance.
  destruct (serve (server w) request) as [[response|reason] s']; reflexivity.
Qed.

Lemma getResources_run (this : Dashboard.t) (filter : IResourceIdentifier)
    (resourceName : string) (resourceClass : list (string * value))
    (headers : value) (extra : list (string * value)) (w : World Srv) :
  headers = VObject extra \/ (truthy headers = false /\ extra = []) ->
  Dashboard.getResources serve this filter resourceName resourceClass headers w =
  (match answer serve (read_request this resourceName filter extra) (server w) with
   | Fulfilled response =>
       resources_of resourceClass (negb (is_undefined (name filter))) (resp_data response)
   | Rejected reason => Threw (AxiosFailure reason)
   end, after serve (read_request this resourceName filter extra) w).
Proof.
  intros Hheaders.
  assert (Hh : (if truthy headers then headers else VObject []) = VObject extra).
  { destruct Hheaders as [->|[-> ->]]; reflexivity. }
  unfold Dashboard.getResources. rewrite Hh.
  erewrite bind_eq by reflexivity. cbn [set_prop].
  erewrite bind_eq by apply dispatch_run.
  replace (verb_request GET _ _) with (read_request this resourceName filter extra)
    by (unfold verb_request, read_request; simpl;
        destruct (is_undefined (name filter)); reflexivity).
  destruct (answer serve _ (server w)) as [response|reason]; [|reflexivity].
  erewrite bind_eq by reflexivity. unfold resources_of.
  destruct (Object_keys _) as [names| |]; simpl; try reflexivity.
  unfold ret. now rewrite push_all.
Qed.

Lemma getProjects_run (this : Dashboard.t) (filter : IProjectFilter) (w : World Srv) :
  Dashboard.getProjects serve this filter w =
  (match answer serve (read_request this "project" filter []) (server w) with
   | Fulfilled response =>
       resources_of ProjectConfig (negb (is_undefined (name filter))) (resp_data response)
   | Rejected reason => Threw (AxiosFailure reason)
   end, after serve (read_request this "project" filter []) w).
Proof.
  unfold Dashboard.getProjects. apply getResources_run. right. split; reflexivity.
Qed.

Lemma getFunctions_run (this : Dashboard.t) (filter : IFunctionFilter) (w : World Srv) :
  Dashboard.getFunctions serve this filter w =
  (match answer serve (read_request this "function" filter (project_header filter))
           (server w) with
   | Fulfilled response =>
       resources_of FunctionConfig (negb (is_undefined (name filter))) (resp_data response)
   | Rejected reason => Threw (AxiosFailure reason)
   end, after serve (read_request this "function" filter (project_header filter)) w).
Proof.
  unfold Dashboard.getFunctions, project_header.
  destruct (is_undefined (projectName filter)); cbn [negb];
    erewrite bind_eq by reflexivity; cbn [set_prop store_prop];
    apply getResources_run; left; reflexivity.
Qed.

(** *** Writing the project label *)

Lemma config_parts_inv (cfg : value) (props metadata labels : list (string * value)) :
  config_parts cfg = Some (props, metadata, labels) ->
  cfg = VObject props /\
  lookup_prop "metadata" props = Some (VObject metadata) /\
  (let found := prop_of (VObject metadata) "labels" in
   (if truthy found then found else VObject []) = VObject labels).
Proof.
  unfold config_parts, prop_of. destruct cfg as [| | | | | |props0]; try discriminate.
  destruct (lookup_prop "metadata" props0) as [[| | | | | |md]|] eqn:Hmd; try discriminate.
  cbn [own_props].
  remember (default VUndefined (lookup_prop "labels" md)) as found eqn:Hfound.
  destruct (truthy found) eqn:Ht.
  - destruct found; try discriminate.
    intros [= <- <- <-]. rewrite <- Hfound. auto.
  - intros [= <- <- <-]. rewrite <- Hfound, Ht. auto.
Qed.

Lemma get_member (props : list (string * value)) (k : string) (x : value) :
  lookup_prop k props = Some x -> get_prop (VObject props) k = Returned x.
Proof. intros H. unfold get_prop, prop_of. cbn. now rewrite H. Qed.

Lemma set_member (props holder : list (string * value)) (p k : string) (x : value) :
  lookup_prop p props = Some (VObject holder) ->
  set_path (VObject props) [p] k x =
  Returned (VObject (store_prop p (VObject (store_prop k x holder)) props)).
Proof. intros H. cbn [set_path]. rewrite (get_member _ _ _ H). reflexivity. Qed.

Lemma label_steps (projectName : string) (cfg : value)
    (props metadata labels : list (string * value)) :
  config_parts cfg = Some (props, metadata, labels) ->
  exists cfg1,
    get_prop cfg "metadata" = Returned (VObject metadata) /\
    set_path cfg ["metadata"] "labels"
      (let found := prop_of (VObject metadata) "labels" in
       if truthy found then found else VObject []) = Returned cfg1 /\
    set_path cfg1 ["metadata"; "labels"] Dashboard.project_label (VString projectName)
    = Returned (with_project projectName props metadata labels).
Proof.
  intros Hparts. destruct (config_parts_inv _ _ _ _ Hparts) as (-> & Hmd & Hlabels).
  cbv zeta in Hlabels. cbv zeta. rewrite Hlabels.
  eexists. split; [exact (get_member _ _ _ Hmd)|].
  split; [exact (set_member _ _ _ _ _ Hmd)|].
  cbn [set_path].
  rewrite (get_member _ "metadata" _ (lookup_store_eq _ _ _)). cbn [obind].
  rewrite (get_member _ "labels" _ (lookup_store_eq _ _ _)). cbn [obind set_prop].
  unfold with_project. now rewrite !store_store.
Qed.

Lemma createFunction_run (this : Dashboard.t) (projectName : string) (l : loc)
    (cfg : value) (props metadata labels : list (string * value)) (w : World Srv) :
  heap w !! l = Some cfg ->
  config_parts cfg = Some (props, metadata, labels) ->
  let cfg' := with_project projectName props metadata labels in
  Dashboard.createFunction serve JSON_text this projectName l w =
  (let* _ := Dashboard.dispatch serve (create_request this JSON_text cfg') in
   Dashboard.poll serve this l Dashboard.maxRetries) (holding l cfg' w).
Proof.
  intros Hheap Hparts cfg'.
  destruct (label_steps projectName _ _ _ _ Hparts) as (cfg1 & Hmd & Hstep1 & Hstep2).
  cbv zeta in Hstep1. unfold Dashboard.createFunction.
  erewrite bind_eq by (unfold deref; rewrite Hheap; reflexivity). cbv iota beta.
  erewrite bind_eq by (unfold lift; rewrite Hmd; reflexivity). cbv iota beta.
  erewrite bind_eq by reflexivity. cbn [get_prop nullish]. cbv iota beta.
  erewrite bind_eq by (unfold lift; rewrite Hstep1; reflexivity). cbv iota beta.
  erewrite bind_eq by reflexivity. cbv iota beta.
  erewrite bind_eq
    by (unfold deref; cbn [heap]; rewrite lookup_insert_eq; reflexivity).
  cbv iota beta.
  erewrite bind_eq by (unfold lift; rewrite Hstep2; reflexivity). cbv iota beta.
  erewrite bind_eq by reflexivity. cbv iota beta.
  erewrite bind_eq
    by (unfold deref; cbn [heap]; rewrite lookup_insert_eq; reflexivity).
  cbv iota beta.
  subst cfg'. unfold holding. cbn [heap server trace].
  rewrite insert_insert_eq. reflexivity.
Qed.

(** *** One polling attempt *)

Lemma object_at_inv (cfg : value) (p : string) (holder : list (string * value)) :
  object_at cfg [p] = Some holder ->
  exists props, cfg = VObject props /\ lookup_prop p props = Some (VObject holder).
Proof.
  destruct cfg as [| | | | | |props]; try discriminate. cbn.
  destruct (lookup_prop p props) as [[| | | | | |child]|] eqn:E; try discriminate.
  intros [= <-]. eauto.
Qed.

Lemma with_project_metadata (projectName : string)
    (props metadata labels : list (string * value)) :
  object_at (with_project projectName props metadata labels) ["metadata"]
  = Some (store_prop "labels"
            (VObject (store_prop Dashboard.project_label (VString projectName) labels))
            metadata).
Proof. unfold with_project. cbn. now rewrite lookup_store_eq. Qed.

Lemma pollFilter_run (l : loc) (cfg : value) (metadata : list (string * value))
    (w : World Srv) :
  heap w !! l = Some cfg ->
  object_at cfg ["metadata"] = Some metadata ->
  Dashboard.pollFilter l w = (Returned (poll_filter cfg), w).
Proof.
  intros Hheap Hmd. destruct (object_at_inv _ _ _ Hmd) as (props & -> & Hlookup).
  unfold Dashboard.pollFilter.
  erewrite bind_eq by (unfold deref; rewrite Hheap; reflexivity). cbv iota beta.
  erewrite bind_eq by (unfold lift; rewrite (get_member _ _ _ Hlookup); reflexivity).
  cbv iota beta.
  erewrite bind_eq by reflexivity. cbn [get_prop nullish]. cbv iota beta.
  erewrite bind_eq by reflexivity. cbv iota beta.
  unfold ret, poll_filter, at_path. cbn [fold_left].
  replace (prop_of (VObject props) "metadata") with (VObject metadata)
    by (unfold prop_of; cbn [own_props]; now rewrite Hlookup).
  reflexivity.
Qed.

Lemma resources_of_cases (resourceClass : list (string * value)) (named : bool)
    (data : value) :
  (exists resources, resources_of resourceClass named data = Returned resources) \/
  resources_of resourceClass named data = Threw JsTypeError.
Proof.
  unfold resources_of, Object_keys.
  destruct (nullish (if named then VObject [("single", data)] else data)); cbn; eauto.
Qed.

Lemma attempt_run (this : Dashboard.t) (l : loc) (cfg : value)
    (metadata : list (string * value)) (w : World Srv) :
  heap w !! l = Some cfg ->
  object_at cfg ["metadata"] = Some metadata ->
  Dashboard.attempt serve this l w =
  (Returned (seen cfg (answer serve (poll_request this cfg) (server w))),
   after serve (poll_request this cfg) w).
Proof.
  intros Hheap Hmd. unfold Dashboard.attempt, try_catch.
  erewrite bind_eq by (eapply pollFilter_run; eauto). cbv iota beta.
  rewrite getFunctions_run.
  change (project_header (poll_filter cfg)) with (@nil (string * value)).
  fold (poll_request this cfg). unfold seen.
  destruct (answer serve (poll_request this cfg) (server w)) as [response|reason];
    [|reflexivity].
  destruct (resources_of_cases FunctionConfig
              (negb (is_undefined (name (poll_filter cfg)))) (resp_data response))
    as [[resources ->]| ->]; reflexivity.
Qed.

(** *** The loop, one turn at a time *)

Lemma state_of_inv (f state : value) :
  state_of f = Returned state ->
  exists status,
    get_prop f "status" = Returned status /\ get_prop status "state" = Returned state.
Proof.
  unfold state_of. destruct (get_prop f "status") as [status| |]; try discriminate.
  cbn. eauto.
Qed.

Lemma poll_continue (this : Dashboard.t) (l : loc) (cfg : value)
    (metadata : list (string * value)) (n : nat) (w : World Srv) :
  heap w !! l = Some cfg ->
  object_at cfg ["metadata"] = Some metadata ->
  nonterminal (seen cfg (answer serve (poll_request this cfg) (server w))) = true ->
  Dashboard.poll serve this l (S n) w =
  Dashboard.poll serve this l n (waited serve (poll_request this cfg) w).
Proof.
  intros Hheap Hmd Hpending. cbn [Dashboard.poll].
  erewrite bind_eq by (eapply attempt_run; eauto). cbv iota beta.
  destruct (seen cfg _) as [|f rest]; [reflexivity|].
  cbn [nonterminal] in Hpending.
  destruct (state_of f) as [state| |] eqn:Hstate; try discriminate.
  destruct (state_of_inv _ _ Hstate) as (status & Hstatus & Hstate').
  apply andb_prop in Hpending. destruct Hpending as [Hready Herror].
  apply negb_true_iff in Hready, Herror.
  repeat (erewrite bind_eq by (unfold lift; first [rewrite Hstatus | rewrite Hstate'];
                               reflexivity); cbv iota beta).
  rewrite Hready.
  repeat (erewrite bind_eq by (unfold lift; first [rewrite Hstatus | rewrite Hstate'];
                               reflexivity); cbv iota beta).
  rewrite Herror. reflexivity.
Qed.

Lemma poll_ready (this : Dashboard.t) (l : loc) (cfg : value)
    (metadata : list (string * value)) (n : nat) (w : World Srv)
    (f : value) (rest : list value) :
  heap w !! l = Some cfg ->
  object_at cfg ["metadata"] = Some metadata ->
  seen cfg (answer serve (poll_request this cfg) (server w)) = f :: rest ->
  state_of f = Returned (VString "ready") ->
  Dashboard.poll serve this l (S n) w =
  (Returned f, after serve (poll_request this cfg) w).
Proof.
  intros Hheap Hmd Hseen Hstate. cbn [Dashboard.poll].
  erewrite bind_eq by (eapply attempt_run; eauto). cbv iota beta. rewrite Hseen.
  destruct (state_of_inv _ _ Hstate) as (status & Hstatus & Hstate').
  repeat (erewrite bind_eq by (unfold lift; first [rewrite Hstatus | rewrite Hstate'];
                               reflexivity); cbv iota beta).
  reflexivity.
Qed.

Lemma poll_error (this : Dashboard.t) (l : loc) (cfg : value)
    (metadata : list (string * value)) (n : nat) (w : World Srv)
    (f : value) (rest : list value) (message : value) :
  heap w !! l = Some cfg ->
  object_at cfg ["metadata"] = Some metadata ->
  seen cfg (answer serve (poll_request this cfg) (server w)) = f :: rest ->
  state_of f = Returned (VString "error") ->
  message_of f = Returned message ->
  Dashboard.poll serve this l (S n) w =
  (Threw (JsError ("Creation failed: " +:+ ToString message)),
   after serve (poll_request this cfg) w).
Proof.
  intros Hheap Hmd Hseen Hstate Hmessage. cbn [Dashboard.poll].
  erewrite bind_eq by (eapply attempt_run; eauto). cbv iota beta. rewrite Hseen.
  destruct (state_of_inv _ _ Hstate) as (status & Hstatus & Hstate').
  unfold message_of in Hmessage. rewrite Hstatus in Hmessage. cbn [obind] in Hmessage.
  repeat (erewrite bind_eq
            by (unfold lift;
                first [rewrite Hstatus | rewrite Hstate' | rewrite Hmessage];
                reflexivity); cbv iota beta).
  cbn [is_string String.eqb Ascii.eqb Bool.eqb].
  repeat (erewrite bind_eq
            by (unfold lift;
                first [rewrite Hstatus | rewrite Hstate' | rewrite Hmessage];
                reflexivity); cbv iota beta).
  cbn [is_string String.eqb Ascii.eqb Bool.eqb].
  repeat (erewrite bind_eq
            by (unfold lift;
                first [rewrite Hstatus | rewrite Hstate' | rewrite Hmessage];
                reflexivity); cbv iota beta).
  reflexivity.
Qed.

(** *** The loop as a whole *)

Lemma at_attempt_shift (request : Request) (j : nat) (s : Srv) :
  at_attempt serve request j (advance serve request s)
  = at_attempt serve request (S j) s.
Proof. unfold at_attempt. now rewrite Nat.iter_succ_r. Qed.

Lemma poll_exhausts (this : Dashboard.t) (l : loc) (cfg : value)
    (metadata : list (string * value)) (n : nat) :
  object_at cfg ["metadata"] = Some metadata ->
  forall w : World Srv,
    heap w !! l = Some cfg ->
    (forall j, j < n ->
       nonterminal (seen cfg (answer serve (poll_request this cfg)
         (at_attempt serve (poll_request this cfg) j (server w)))) = true) ->
    Dashboard.poll serve this l n w =
    (Returned VUndefined,
     mkWorld (heap w) (at_attempt serve (poll_request this cfg) n (server w))
       (trace w ++ rounds (poll_request this cfg) n)).
Proof.
  intros Hmd. induction n as [|n IH]; intros w Hheap Hpending.
  - cbn. unfold ret. destruct w. cbn. now rewrite app_nil_r.
  - erewrite poll_continue; eauto; [|apply (Hpending 0); lia].
    rewrite IH; cbn [waited logged after heap server trace]; auto.
    + rewrite at_attempt_shift. unfold rounds, round. cbn [repeat concat].
      now rewrite <- !app_assoc.
    + intros j Hj. rewrite at_attempt_shift. apply Hpending. lia.
Qed.

Lemma poll_fails_at (this : Dashboard.t) (l : loc) (cfg : value)
    (metadata : list (string * value)) (f : value) (rest : list value)
    (message : value) (k : nat) :
  object_at cfg ["metadata"] = Some metadata ->
  state_of f = Returned (VString "error") ->
  message_of f = Returned message ->
  forall (n : nat) (w : World Srv),
    k < n ->
    heap w !! l = Some cfg ->
    (forall j, j < k ->
       nonterminal (seen cfg (answer serve (poll_request this cfg)
         (at_attempt serve (poll_request this cfg) j (server w)))) = true) ->
    seen cfg (answer serve (poll_request this cfg)
      (at_attempt serve (poll_request this cfg) k (server w))) = f :: rest ->
    Dashboard.poll serve this l n w =
    (Threw (JsError ("Creation failed: " +:+ ToString message)),
     mkWorld (heap w)
       (at_attempt serve (poll_request this cfg) (S k) (server w))
       (trace w ++ rounds (poll_request this cfg) k ++ [Http (poll_request this cfg)])).
Proof.
  intros Hmd Hstate Hmessage. induction k as [|k IH]; intros n w Hkn Hheap Hpending Hseen.
  - destruct n as [|n]; [lia|].
    erewrite poll_error; eauto.
  - destruct n as [|n]; [lia|].
    erewrite poll_continue; eauto; [|apply (Hpending 0); lia].
    rewrite IH; cbn [waited logged after heap server trace]; auto; try lia.
    + rewrite at_attempt_shift. unfold rounds, round. cbn [repeat concat].
      now rewrite <- !app_assoc.
    + intros j Hj. rewrite at_attempt_shift. apply Hpending. lia.
    + now rewrite at_attempt_shift.
Qed.

Lemma polling_calls_app (a b : list Event) :
  polling_calls (a ++ b) = polling_calls a + polling_calls b.
Proof. unfold polling_calls. now rewrite filter_app, length_app. Qed.

Lemma polling_calls_rounds (request : Request) (n : nat) :
  req_verb request = GET -> polling_calls (rounds request n) = n.
Proof.
  intros Hget. induction n as [|n IH]; [reflexivity|].
  unfold rounds in *. cbn [repeat concat]. rewrite polling_calls_app, IH.
  unfold polling_calls, round. cbn. rewrite Hget. cbn.
  destruct (decide (true = true)); [reflexivity|congruence].
Qed.

(** *** What never touches the caller's objects *)

Lemma orderly_bind {A B} (m : M Srv A) (k : A -> M Srv B) :
  orderly m -> (forall a, orderly (k a)) -> orderly (bind m k).
Proof.
  intros Hm Hk w. unfold bind. destruct (Hm w) as [Hheap [later Htrace]].
  destruct (m w) as [[a|e|] w']; cbn in *; eauto.
  destruct (Hk a w') as [Hheap' [later' Htrace']].
  rewrite Hheap', Htrace', Hheap, Htrace. split; [reflexivity|].
  exists (later ++ later'). now rewrite app_assoc.
Qed.

Lemma orderly_try {A} (m : M Srv A) (h : exn -> M Srv A) :
  orderly m -> (forall e, orderly (h e)) -> orderly (try_catch m h).
Proof.
  intros Hm Hh w. unfold try_catch. destruct (Hm w) as [Hheap [later Htrace]].
  destruct (m w) as [[a|e|] w']; cbn in *; eauto.
  destruct (Hh e w') as [Hheap' [later' Htrace']].
  rewrite Hheap', Htrace', Hheap, Htrace. split; [reflexivity|].
  exists (later ++ later'). now rewrite app_assoc.
Qed.

Lemma orderly_still {A} (m : M Srv A) :
  (forall w, snd (m w) = w) -> orderly m.
Proof.
  intros H w. rewrite H. split; [reflexivity|]. exists []. now rewrite app_nil_r.
Qed.

Lemma orderly_lift {A} (r : outcome A) : orderly (Srv := Srv) (lift r).
Proof. now apply orderly_still. Qed.

Lemma orderly_ret {A} (a : A) : orderly (Srv := Srv) (ret a).
Proof. now apply orderly_still. Qed.

Lemma orderly_throw {A} (e : exn) : orderly (Srv := Srv) (throw (A := A) e).
Proof. now apply orderly_still. Qed.

Lemma orderly_deref (l : loc) : orderly (Srv := Srv) (deref l).
Proof. apply orderly_still. intros w. unfold deref. now destruct (heap w !! l). Qed.

Lemma orderly_emit (e : Event) : orderly (Srv := Srv) (emit e).
Proof. intros w. cbn. eauto. Qed.

Lemma orderly_dispatch (request : Request) : orderly (Dashboard.dispatch serve request).
Proof. intros w. rewrite dispatch_run. cbn. eauto. Qed.

Lemma orderly_getFunctions (this : Dashboard.t) (filter : IFunctionFilter) :
  orderly (Dashboard.getFunctions serve this filter).
Proof. intros w. rewrite getFunctions_run. cbn. eauto. Qed.

Lemma orderly_pollFilter (l : loc) : orderly (Srv := Srv) (Dashboard.pollFilter l).
Proof.
  unfold Dashboard.pollFilter.
  repeat (apply orderly_bind; [first [apply orderly_deref | apply orderly_lift]|intros]).
  apply orderly_ret.
Qed.

Lemma orderly_attempt (this : Dashboard.t) (l : loc) :
  orderly (Dashboard.attempt serve this l).
Proof.
  unfold Dashboard.attempt.
  apply orderly_try; [|intros; apply orderly_ret].
  apply orderly_bind; [apply orderly_pollFilter|intros; apply orderly_getFunctions].
Qed.

Lemma orderly_poll (this : Dashboard.t) (l : loc) (n : nat) :
  orderly (Dashboard.poll serve this l n).
Proof.
  induction n as [|n IH]; cbn [Dashboard.poll]; [apply orderly_ret|].
  apply orderly_bind; [apply orderly_attempt|]. intros [|f rest].
  - apply orderly_bind; [apply orderly_emit|auto].
  - repeat (apply orderly_bind; [apply orderly_lift|intros]).
    destruct (is_string _ "ready"); [apply orderly_ret|].
    repeat (apply orderly_bind; [apply orderly_lift|intros]).
    destruct (is_string _ "error").
    + repeat (apply orderly_bind; [apply orderly_lift|intros]). apply orderly_throw.
    + apply orderly_bind; [apply orderly_emit|auto].
Qed.

(** *** Paths *)

Lemma set_path_object (v : value) (path : list string) (k : string) (x : value)
    (holder : list (string * value)) :
  object_at v path = Some holder ->
  exists v',
    set_path v path k x = Returned v' /\
    at_path v' (path ++ [k]) = x /\
    object_at v' path = Some (store_prop k x holder).
Proof.
  revert v. induction path as [|p rest IH]; intros v Hat.
  - destruct v as [| | | | | |props]; try discriminate.
    cbn in Hat. injection Hat as <-.
    eexists. split; [reflexivity|]. split; [|reflexivity].
    unfold at_path, prop_of. cbn. now rewrite lookup_store_eq.
  - destruct v as [| | | | | |props]; try discriminate. cbn [object_at] in Hat.
    destruct (lookup_prop p props) as [child|] eqn:Hchild; try discriminate.
    destruct (IH child Hat) as (child' & Hset & Hget & Hobj).
    eexists. split; [|split].
    + cbn [set_path]. rewrite (get_member _ _ _ Hchild). cbn [obind].
      rewrite Hset. reflexivity.
    + unfold at_path in *. cbn [app fold_left].
      replace (prop_of _ p) with child'; [assumption|].
      unfold prop_of. cbn [own_props]. now rewrite lookup_store_eq.
    + cbn [object_at]. now rewrite lookup_store_eq.
Qed.

Lemma with_project_label (projectName : string)
    (props metadata labels : list (string * value)) :
  at_path (with_project projectName props metadata labels)
    ["metadata"; "labels"; Dashboard.project_label] = VString projectName.
Proof.
  unfold at_path, with_project, prop_of. cbn [fold_left own_props].
  rewrite lookup_store_eq. cbn [from_option id own_props].
  rewrite lookup_store_eq. cbn [from_option id own_props].
  now rewrite lookup_store_eq.
Qed.

(** *** [createFunction] after its create request *)

Lemma createFunction_accepted (this : Dashboard.t) (projectName : string) (l : loc)
    (cfg : value) (props metadata labels : list (string * value)) (w : World Srv)
    (response : Response) :
  heap w !! l = Some cfg ->
  config_parts cfg = Some (props, metadata, labels) ->
  answer serve
    (create_request this JSON_text (with_project projectName props metadata labels))
    (server w) = Fulfilled response ->
  Dashboard.createFunction serve JSON_text this projectName l w =
  Dashboard.poll serve this l Dashboard.maxRetries
    (after serve
       (create_request this JSON_text (with_project projectName props metadata labels))
       (holding l (with_project projectName props metadata labels) w)).
Proof.
  intros Hheap Hparts Hok. rewrite (createFunction_run _ _ _ _ _ _ _ _ Hheap Hparts).
  cbv zeta. erewrite bind_eq by apply dispatch_run.
  cbn [holding server]. now rewrite Hok.
Qed.

Lemma createFunction_rejected (this : Dashboard.t) (projectName : string) (l : loc)
    (cfg : value) (props metadata labels : list (string * value)) (w : World Srv)
    (reason : value) :
  heap w !! l = Some cfg ->
  config_parts cfg = Some (props, metadata, labels) ->
  answer serve
    (create_request this JSON_text (with_project projectName props metadata labels))
    (server w) = Rejected reason ->
  Dashboard.createFunction serve JSON_text this projectName l w =
  (Threw (AxiosFailure reason),
   after serve
     (create_request this JSON_text (with_project projectName props metadata labels))
     (holding l (with_project projectName props metadata labels) w)).
Proof.
  intros Hheap Hparts Hno. rewrite (createFunction_run _ _ _ _ _ _ _ _ Hheap Hparts).
  cbv zeta. erewrite bind_eq by apply dispatch_run.
  cbn [holding server]. now rewrite Hno.
Qed.

Lemma since_app (w w' : World Srv) (events : list Event) :
  trace w' = trace w ++ events -> since w w' = events.
Proof. intros H. unfold since. rewrite H. apply drop_app_length. Qed.

Lemma polling_calls_create (this : Dashboard.t) (cfg : value) (events : list Event) :
  polling_calls (Http (create_request this JSON_text cfg) :: events)
  = polling_calls events.
Proof. reflexivity. Qed.

Lemma polling_calls_last (this : Dashboard.t) (cfg : value) (k : nat) :
  polling_calls (rounds (poll_request this cfg) k ++ [Http (poll_request this cfg)])
  = k + 1.
Proof.
  rewrite polling_calls_app, polling_calls_rounds by reflexivity. reflexivity.
Qed.
(** *** Normalising a response *)

Lemma resources_of_single (resourceClass : list (string * value)) (data : value) :
  resources_of resourceClass true data
  = Returned [VObject (Object_assign resourceClass data)].
Proof. reflexivity. Qed.

Lemma lookup_member (k : string) (v : value) (entries : list (string * value)) :
  NoDup (map fst entries) -> In (k, v) entries -> lookup_prop k entries = Some v.
Proof.
  intros Hnd Hin. apply list_elem_of_In, list_elem_of_lookup_1 in Hin.
  destruct Hin as [i Hi]. eapply lookup_entry; eauto.
Qed.

Lemma resources_of_map (resourceClass entries : list (string * value)) :
  NoDup (map fst entries) ->
  resources_of resourceClass false (VObject entries)
  = Returned (from_map resourceClass entries).
Proof.
  intros Hnd. unfold resources_of, Object_keys, from_map. cbn [nullish own_props obind].
  f_equal. rewrite map_map. apply map_ext_in. intros [k v] Hin.
  unfold prop_of. cbn [own_props fst snd]. now rewrite (lookup_member _ _ _ Hnd Hin).
Qed.

Lemma assigned_carries (resourceClass record : list (string * value)) (payload : value) :
  assigned resourceClass payload record -> carries (VObject record) payload.
Proof. intros H field x Hfield. cbn [own_props]. now rewrite H, Hfield. Qed.

Lemma is_undefined_false (v : value) : v <> VUndefined -> is_undefined v = false.
Proof. destruct v; auto. congruence. Qed.

(** *** Invocation *)

Lemma invokeFunction_run (this : Dashboard.t) (id : IResourceIdentifier)
    (options : IInvokeOptions) (given : list (string * value)) (v : verb)
    (w : World Srv) :
  name id <> VUndefined ->
  headers options = VObject given \/ (truthy (headers options) = false /\ given = []) ->
  axios_member (method options) = Some v ->
  Dashboard.invokeFunction serve this id options w =
  wrapped
    (Dashboard.dispatch serve
       (verb_request v (invocation_url this)
          (if existsb (String.eqb (method options)) ["post"; "put"; "path"]
           then [body options;
                 VObject [("headers", VObject (invoke_headers id options given))]]
           else [VObject [("headers", VObject (invoke_headers id options given))]]))
       w).
Proof.
  intros Hname Hheaders Hverb.
  assert (Hh : (if truthy (headers options) then headers options else VObject [])
               = VObject given)
    by (destruct Hheaders as [->|[-> ->]]; reflexivity).
  unfold Dashboard.invokeFunction. rewrite (is_undefined_false _ Hname), Hh.
  erewrite bind_eq by reflexivity. cbn [set_prop].
  erewrite bind_eq by reflexivity. cbn [set_prop].
  erewrite bind_eq by reflexivity. cbn [set_prop].
  unfold Dashboard.axios. rewrite Hverb. unfold invoke_headers, invocation_url.
  destruct (is_undefined (path options)); cbn [negb];
    erewrite bind_eq by reflexivity; cbn [set_prop];
    unfold bind, ret;
    destruct (existsb _ _);
    unfold wrapped;
    match goal with
    | |- context [Dashboard.dispatch serve ?r w] =>
        destruct (Dashboard.dispatch serve r w) as [[response|e|] w']
    end; reflexivity.
Qed.
End Runs.

(** ** The claims *)

Section Claims.
Context {Srv : Type}.
Variable serve : Srv -> Request -> Reply * Srv.
Variable JSON_text : value -> string.

(** C1.  During the readiness polling of [createFunction], the first
    attempt that finds the function in state ["error"] ends the call at
    once: it throws [Error("Creation failed: <status.message>")] and no
    further request is made.  With [k] earlier attempts that found
    nothing terminal, the call has made exactly [k + 1] polling calls;
    when the very first poll reports the error ([k = 0]) that is exactly
    one. *)
Theorem C1_error_state_fails_at_once
    (this : Dashboard.t) (projectName : string) (l : loc) (cfg : value)
    (props metadata labels : list (string * value)) (w : World Srv)
    (response : Response) (k : nat) (f : value) (rest : list value) (message : value) :
  heap w !! l = Some cfg ->
  config_parts cfg = Some (props, metadata, labels) ->
  answer serve
    (create_request this JSON_text (with_project projectName props metadata labels))
    (server w) = Fulfilled response ->
  k < Dashboard.maxRetries ->
  (forall j, j < k ->
     nonterminal
       (polled serve this (with_project projectName props metadata labels)
          (created serve
             (create_request this JSON_text
                (with_project projectName props metadata labels)) w) j) = true) ->
  polled serve this (with_project projectName props metadata labels)
    (created serve
       (create_request this JSON_text
          (with_project projectName props metadata labels)) w) k = f :: rest ->
  state_of f = Returned (VString "error") ->
  message_of f = Returned message ->
  exists w',
    Dashboard.createFunction serve JSON_text this projectName l w =
      (Threw (JsError ("Creation failed: " +:+ ToString message)), w') /\
    trace w' =
      trace w ++
      Http (create_request this JSON_text
              (with_project projectName props metadata labels))
      :: rounds (poll_request this (with_project projectName props metadata labels)) k
      ++ [Http (poll_request this (with_project projectName props metadata labels))] /\
    polling_calls (since w w') = k + 1.
Proof.
  intros Hheap Hparts Hok Hk Hpending Hseen Hstate Hmessage.
  rewrite (createFunction_accepted serve JSON_text _ _ _ _ _ _ _ _ _ Hheap Hparts Hok).
  erewrite poll_fails_at; eauto using with_project_metadata.
  - eexists. split; [reflexivity|].
    assert (Htrace : forall a (e : Event) b, (a ++ [e]) ++ b = a ++ e :: b)
      by (intros; now rewrite <- app_assoc).
    cbn [trace after holding]. rewrite Htrace. split; [reflexivity|].
    erewrite since_app by (cbn [trace]; reflexivity).
    rewrite polling_calls_create. apply polling_calls_last.
  - cbn [heap after holding]. apply lookup_insert_eq.
Qed.

(** C2.  Once the create request has been accepted, if none of the 60
    polling attempts finds a terminal state (each finds nothing, the read
    having failed or come back empty, or a function whose [status.state]
    can be read and is neither ["ready"] nor ["error"]), the call makes
    exactly 60 polling attempts, each followed by a wait of 1000 ms, and
    then returns [undefined] without throwing. *)
Theorem C2_silent_timeout_after_60_polls
    (this : Dashboard.t) (projectName : string) (l : loc) (cfg : value)
    (props metadata labels : list (string * value)) (w : World Srv)
    (response : Response) :
  heap w !! l = Some cfg ->
  config_parts cfg = Some (props, metadata, labels) ->
  answer serve
    (create_request this JSON_text (with_project projectName props metadata labels))
    (server w) = Fulfilled response ->
  (forall j, j < Dashboard.maxRetries ->
     nonterminal
       (polled serve this (with_project projectName props metadata labels)
          (created serve
             (create_request this JSON_text
                (with_project projectName props metadata labels)) w) j) = true) ->
  exists w',
    Dashboard.createFunction serve JSON_text this projectName l w =
      (Returned VUndefined, w') /\
    trace w' =
      trace w ++
      Http (create_request this JSON_text
              (with_project projectName props metadata labels))
      :: rounds (poll_request this (with_project projectName props metadata labels)) 60 /\
    polling_calls (since w w') = 60.
Proof.
  intros Hheap Hparts Hok Hpending.
  rewrite (createFunction_accepted serve JSON_text _ _ _ _ _ _ _ _ _ Hheap Hparts Hok).
  erewrite poll_exhausts; eauto using with_project_metadata.
  - eexists. split; [reflexivity|].
    cbn [trace after holding]. rewrite <- app_assoc. split; [reflexivity|].
    erewrite since_app by (cbn [trace]; reflexivity).
    cbn [app]. rewrite polling_calls_create. now apply polling_calls_rounds.
  - cbn [heap after holding]. apply lookup_insert_eq.
Qed.

(** C3.  A transport failure of the create request propagates: the call
    throws the rejection and makes no polling call.  A failure of the
    read inside a polling attempt (a rejected request, or any other
    exception of [getFunctions]) is caught and the attempt holds an
    empty result, exactly as if nothing had been found: the loop waits
    and goes on with the next attempt. *)
Theorem C3_read_failure_swallowed_create_failure_propagates
    (this : Dashboard.t) (projectName : string) (l : loc) (cfg : value)
    (props metadata labels : list (string * value)) (w : World Srv) :
  heap w !! l = Some cfg ->
  config_parts cfg = Some (props, metadata, labels) ->
  (forall reason,
     answer serve
       (create_request this JSON_text (with_project projectName props metadata labels))
       (server w) = Rejected reason ->
     Dashboard.createFunction serve JSON_text this projectName l w =
     (Threw (AxiosFailure reason),
      mkWorld (<[l := with_project projectName props metadata labels]> (heap w))
        (created serve
           (create_request this JSON_text
              (with_project projectName props metadata labels)) w)
        (trace w ++
         [Http (create_request this JSON_text
                  (with_project projectName props metadata labels))]))) /\
  (forall (w1 : World Srv) (reason : value) (n : nat),
     heap w1 !! l = Some (with_project projectName props metadata labels) ->
     answer serve
       (poll_request this (with_project projectName props metadata labels))
       (server w1) = Rejected reason ->
     Dashboard.attempt serve this l w1 =
     (Returned [],
      after serve (poll_request this (with_project projectName props metadata labels)) w1)
     /\
     Dashboard.poll serve this l (S n) w1 =
     Dashboard.poll serve this l n
       (waited serve
          (poll_request this (with_project projectName props metadata labels)) w1)) /\
  (forall (w1 w2 : World Srv) (e : exn),
     (let* filter := Dashboard.pollFilter l in
      Dashboard.getFunctions serve this filter) w1 = (Threw e, w2) ->
     Dashboard.attempt serve this l w1 = (Returned [], w2)).
Proof.
  intros Hheap Hparts. split; [|split].
  - intros reason Hno.
    now rewrite (createFunction_rejected serve JSON_text _ _ _ _ _ _ _ _ _
                   Hheap Hparts Hno).
  - intros w1 reason n Hheap1 Hno.
    pose proof (with_project_metadata projectName props metadata labels) as Hmd.
    split.
    + erewrite attempt_run by eauto. now rewrite Hno.
    + eapply poll_continue; eauto. now rewrite Hno.
  - intros w1 w2 e Hread. unfold Dashboard.attempt, try_catch.
    now rewrite Hread.
Qed.

(** C8.  [createFunction] first writes the label
    ["nuclio.io/project-name"], with value [projectName], into
    [functionConfig.metadata.labels] (an empty table is created when the
    labels are missing; a previous value of that label is overwritten),
    and only then issues the create request: the call runs as the create
    request followed by the polling loop, started in the world where the
    caller's object already carries the label; the first event of the
    call is the POST, and its body serialises that configuration. *)
Theorem C8_project_label_written_before_create
    (this : Dashboard.t) (projectName : string) (l : loc) (cfg : value)
    (props metadata labels : list (string * value)) (w : World Srv) :
  heap w !! l = Some cfg ->
  config_parts cfg = Some (props, metadata, labels) ->
  exists cfg' later,
    at_path cfg' ["metadata"; "labels"; Dashboard.project_label] = VString projectName /\
    object_at cfg' ["metadata"; "labels"]
      = Some (store_prop Dashboard.project_label (VString projectName) labels) /\
    Dashboard.createFunction serve JSON_text this projectName l w
      = (let* _ :=
           Dashboard.dispatch serve
             (mkRequest POST (Dashboard.url this +:+ "/api/functions")
                (VString (JSON_text cfg')) VUndefined) in
         Dashboard.poll serve this l Dashboard.maxRetries) (holding l cfg' w) /\
    trace (snd (Dashboard.createFunction serve JSON_text this projectName l w))
      = trace w ++
        Http (mkRequest POST (Dashboard.url this +:+ "/api/functions")
                (VString (JSON_text cfg')) VUndefined) :: later /\
    heap (snd (Dashboard.createFunction serve JSON_text this projectName l w)) !! l
      = Some cfg'.
Proof.
  intros Hheap Hparts.
  exists (with_project projectName props metadata labels).
  assert (Hlabels :
    object_at (with_project projectName props metadata labels) ["metadata"; "labels"]
    = Some (store_prop Dashboard.project_label (VString projectName) labels)).
  { unfold with_project. cbn [object_at]. now rewrite !lookup_store_eq. }
  pose proof (createFunction_run serve JSON_text this projectName l cfg props metadata
                labels w Hheap Hparts) as Hrun.
  cbv zeta in Hrun.
  assert (Hafter : exists later,
    trace (snd (Dashboard.createFunction serve JSON_text this projectName l w))
      = trace w ++
        Http (create_request this JSON_text
                (with_project projectName props metadata labels)) :: later /\
    heap (snd (Dashboard.createFunction serve JSON_text this projectName l w)) !! l
      = Some (with_project projectName props metadata labels)).
  { destruct (answer serve
                (create_request this JSON_text
                   (with_project projectName props metadata labels)) (server w))
      as [response|reason] eqn:Hanswer.
    - rewrite (createFunction_accepted serve JSON_text _ _ _ _ _ _ _ _ _
                 Hheap Hparts Hanswer).
      destruct (orderly_poll serve this l Dashboard.maxRetries
                  (after serve
                     (create_request this JSON_text
                        (with_project projectName props metadata labels))
                     (holding l (with_project projectName props metadata labels) w)))
        as [Hkept [later Hgrown]].
      exists later. rewrite Hkept, Hgrown. cbn [trace heap after holding]. split.
      + now rewrite <- app_assoc.
      + apply lookup_insert_eq.
    - rewrite (createFunction_rejected serve JSON_text _ _ _ _ _ _ _ _ _
                 Hheap Hparts Hanswer).
      exists []. cbn [snd trace heap after holding]. split; [reflexivity|].
      apply lookup_insert_eq. }
  destruct Hafter as (later & Htrace & Hheld). exists later.
  repeat split; auto using with_project_label.
Qed.

(** C10.  [createFunction] changes the caller's [functionConfig] in
    place and nothing else: whatever the outcome of the call, no other
    object of the caller changes; in [functionConfig] every member other
    than [metadata] keeps its value, in [metadata] every member other
    than [labels], and in [labels] every label other than
    ["nuclio.io/project-name"], which now holds [projectName]. *)
Theorem C10_only_the_project_label_changes
    (this : Dashboard.t) (projectName : string) (l : loc) (cfg : value)
    (props metadata labels : list (string * value)) (w : World Srv) :
  heap w !! l = Some cfg ->
  config_parts cfg = Some (props, metadata, labels) ->
  exists props' metadata' labels',
    heap (snd (Dashboard.createFunction serve JSON_text this projectName l w)) !! l
      = Some (VObject props') /\
    (forall l', l' <> l ->
       heap (snd (Dashboard.createFunction serve JSON_text this projectName l w)) !! l'
       = heap w !! l') /\
    map fst props' = map fst props /\
    lookup_prop "metadata" props' = Some (VObject metadata') /\
    (forall k, k <> "metadata" -> lookup_prop k props' = lookup_prop k props) /\
    lookup_prop "labels" metadata' = Some (VObject labels') /\
    (forall k, k <> "labels" -> lookup_prop k metadata' = lookup_prop k metadata) /\
    lookup_prop Dashboard.project_label labels' = Some (VString projectName) /\
    (forall k, k <> Dashboard.project_label ->
       lookup_prop k labels' = lookup_prop k labels).
Proof.
  intros Hheap Hparts.
  destruct (config_parts_inv _ _ _ _ Hparts) as (_ & Hmd & _).
  exists (store_prop "metadata"
            (VObject (store_prop "labels"
               (VObject (store_prop Dashboard.project_label (VString projectName) labels))
               metadata)) props),
    (store_prop "labels"
       (VObject (store_prop Dashboard.project_label (VString projectName) labels))
       metadata),
    (store_prop Dashboard.project_label (VString projectName) labels).
  assert (Hfinal :
    heap (snd (Dashboard.createFunction serve JSON_text this projectName l w))
    = <[l := with_project projectName props metadata labels]> (heap w)).
  { destruct (answer serve
                (create_request this JSON_text
                   (with_project projectName props metadata labels)) (server w))
      as [response|reason] eqn:Hanswer.
    - rewrite (createFunction_accepted serve JSON_text _ _ _ _ _ _ _ _ _
                 Hheap Hparts Hanswer).
      now rewrite (proj1 (orderly_poll serve this l Dashboard.maxRetries _)).
    - now rewrite (createFunction_rejected serve JSON_text _ _ _ _ _ _ _ _ _
                     Hheap Hparts Hanswer). }
  rewrite Hfinal.
  repeat split; auto using lookup_store_eq, lookup_store_ne.
  - apply lookup_insert_eq.
  - intros l' Hl'. now apply lookup_insert_ne.
  - eapply store_keys; eauto.
Qed.

(** C5.  With [filter.name] set, a successful read yields exactly one
    element, built from the response payload taken as a single resource.
    This holds for [getProjects] and for [getFunctions], each under its
    own request.  The element is a fresh [ProjectConfig] (respectively
    [FunctionConfig]) onto which the payload's members have been copied:
    it has, under every name, the payload's member when the payload has
    one, and otherwise what the constructor defined. *)
Theorem C5_named_filter_yields_one_element
    (this : Dashboard.t) (projects : IProjectFilter) (functions : IFunctionFilter)
    (w : World Srv) :
  (name projects <> VUndefined ->
   forall found : Response,
     answer serve (read_request this "project" projects []) (server w)
       = Fulfilled found ->
     exists record,
       Dashboard.getProjects serve this projects w =
         (Returned [VObject record],
          after serve (read_request this "project" projects []) w) /\
       (distinct_keys (resp_data found) ->
        assigned ProjectConfig (resp_data found) record)) /\
  (name functions <> VUndefined ->
   forall found : Response,
     answer serve (read_request this "function" functions (project_header functions))
       (server w) = Fulfilled found ->
     exists record,
       Dashboard.getFunctions serve this functions w =
         (Returned [VObject record],
          after serve
            (read_request this "function" functions (project_header functions)) w) /\
       (distinct_keys (resp_data found) ->
        assigned FunctionConfig (resp_data found) record)).
Proof.
  split; intros Hname found Hanswer.
  - exists (Object_assign ProjectConfig (resp_data found)). split.
    + rewrite getProjects_run, Hanswer, (is_undefined_false _ Hname). cbn [negb].
      now rewrite resources_of_single.
    + intros Hdistinct field. unfold Object_assign. now apply assign_lookup.
  - exists (Object_assign FunctionConfig (resp_data found)). split.
    + rewrite getFunctions_run, Hanswer, (is_undefined_false _ Hname). cbn [negb].
      now rewrite resources_of_single.
    + intros Hdistinct field. unfold Object_assign. now apply assign_lookup.
Qed.

(** C6.  With [filter.name] unset and a map-shaped payload (an object
    with distinct keys), a successful read yields one record per key: as
    many records as the map has keys, the record of each entry carrying
    every member of that entry (and, under the other names, what the
    constructor defined).  This holds for [getProjects] and for
    [getFunctions], each under its own request. *)
Theorem C6_unnamed_filter_flattens_the_map
    (this : Dashboard.t) (projects : IProjectFilter) (functions : IFunctionFilter)
    (w : World Srv) :
  (name projects = VUndefined ->
   forall (found : Response) (entries : list (string * value)),
     answer serve (read_request this "project" projects []) (server w)
       = Fulfilled found ->
     resp_data found = VObject entries ->
     NoDup (map fst entries) ->
     exists resources : list value,
       Dashboard.getProjects serve this projects w =
         (Returned resources,
          after serve (read_request this "project" projects []) w) /\
       length resources = length (map fst entries) /\
       forall i k entry,
         entries !! i = Some (k, entry) ->
         distinct_keys entry ->
         exists record : list (string * value),
           resources !! i = Some (VObject record) /\
           carries (VObject record) entry /\
           assigned ProjectConfig entry record) /\
  (name functions = VUndefined ->
   forall (found : Response) (entries : list (string * value)),
     answer serve (read_request this "function" functions (project_header functions))
       (server w) = Fulfilled found ->
     resp_data found = VObject entries ->
     NoDup (map fst entries) ->
     exists resources : list value,
       Dashboard.getFunctions serve this functions w =
         (Returned resources,
          after serve
            (read_request this "function" functions (project_header functions)) w) /\
       length resources = length (map fst entries) /\
       forall i k entry,
         entries !! i = Some (k, entry) ->
         distinct_keys entry ->
         exists record : list (string * value),
           resources !! i = Some (VObject record) /\
           carries (VObject record) entry /\
           assigned FunctionConfig entry record).
Proof.
  split; intros Hname found entries Hanswer Hdata Hkeys.
  - exists (from_map ProjectConfig entries). split; [|split].
    + rewrite getProjects_run, Hanswer, Hname, Hdata. cbn [is_undefined negb].
      now rewrite resources_of_map.
    + unfold from_map. now rewrite !length_map.
    + intros i k entry Hi Hdistinct. exists (Object_assign ProjectConfig entry).
      assert (Hassigned : assigned ProjectConfig entry (Object_assign ProjectConfig entry)).
      { intros field. unfold Object_assign. now apply assign_lookup. }
      split; [|split; [eapply assigned_carries; eauto|exact Hassigned]].
      unfold from_map. rewrite list_lookup_fmap, Hi. reflexivity.
  - exists (from_map FunctionConfig entries). split; [|split].
    + rewrite getFunctions_run, Hanswer, Hname, Hdata. cbn [is_undefined negb].
      now rewrite resources_of_map.
    + unfold from_map. now rewrite !length_map.
    + intros i k entry Hi Hdistinct. exists (Object_assign FunctionConfig entry).
      assert (Hassigned : assigned FunctionConfig entry (Object_assign FunctionConfig entry)).
      { intros field. unfold Object_assign. now apply assign_lookup. }
      split; [|split; [eapply assigned_carries; eauto|exact Hassigned]].
      unfold from_map. rewrite list_lookup_fmap, Hi. reflexivity.
Qed.

(** C7.  With [id.name] undefined, [deleteProject], [deleteFunction] and
    [invokeFunction] throw their "name must be specified" error and
    leave the world as it was: no request has been handed to axios. *)
Theorem C7_missing_name_rejected_before_any_request
    (this : Dashboard.t) (id : IResourceIdentifier) (filter : IFunctionFilter)
    (options : IInvokeOptions) (w : World Srv) :
  name id = VUndefined ->
  name filter = VUndefined ->
  Dashboard.deleteProject serve JSON_text this id w =
    (Threw (JsError "Resource name must be specified in delete"), w) /\
  Dashboard.deleteFunction serve JSON_text this filter w =
    (Threw (JsError "Resource name must be specified in delete"), w) /\
  Dashboard.invokeFunction serve this id options w =
    (Threw (JsError "Function name must be specified in invoke"), w).
Proof.
  intros Hid Hfilter.
  unfold Dashboard.deleteProject, Dashboard.deleteFunction, Dashboard.deleteResource,
    Dashboard.invokeFunction.
  rewrite Hid, Hfilter. cbn [is_undefined]. auto.
Qed.
End Claims.

(** C4.  At [options.method = "patch"] the request does not carry
    [options.body]: the list the method is tested against reads
    ["path"], so the call takes the two-argument form, and axios takes the
    config object for the payload.  The PATCH request goes out with
    [{headers: ...}] as its body and with no headers of its own. *)
Theorem C4_patch_request_carries_the_config_not_the_body
    {Srv : Type} (serve : Srv -> Request -> Reply * Srv)
    (this : Dashboard.t) (id : IResourceIdentifier) (options : IInvokeOptions)
    (given : list (string * value)) (w : World Srv) :
  name id <> VUndefined ->
  headers options = VObject given \/ (truthy (headers options) = false /\ given = []) ->
  method options = "patch" ->
  trace (snd (Dashboard.invokeFunction serve this id options w))
  = trace w ++
    [Http (mkRequest PATCH (invocation_url this)
             (VObject [("headers", VObject (invoke_headers id options given))])
             VUndefined)].
Proof.
  intros Hname Hheaders Hmethod.
  rewrite (invokeFunction_run serve this id options given PATCH w Hname Hheaders)
    by (rewrite Hmethod; reflexivity).
  rewrite Hmethod. unfold wrapped. cbn [snd]. rewrite dispatch_run. reflexivity.
Qed.

(** For ["post"] and ["put"] the payload is [options.body]. *)
Lemma invoke_post_put_carry_the_body
    {Srv : Type} (serve : Srv -> Request -> Reply * Srv)
    (this : Dashboard.t) (id : IResourceIdentifier) (options : IInvokeOptions)
    (given : list (string * value)) (w : World Srv) :
  name id <> VUndefined ->
  headers options = VObject given \/ (truthy (headers options) = false /\ given = []) ->
  method options = "post" \/ method options = "put" ->
  exists v,
    axios_member (method options) = Some v /\
    trace (snd (Dashboard.invokeFunction serve this id options w))
    = trace w ++
      [Http (mkRequest v (invocation_url this) (body options)
               (VObject (invoke_headers id options given)))].
Proof.
  intros Hname Hheaders [Hmethod|Hmethod]; [exists POST|exists PUT];
    (split; [rewrite Hmethod; reflexivity|]);
    erewrite invokeFunction_run by (eauto; rewrite Hmethod; reflexivity);
    rewrite Hmethod; unfold wrapped; cbn [snd]; rewrite dispatch_run; reflexivity.
Qed.

(** For [get], [delete], [head] and [options] no payload is sent. *)
Lemma invoke_other_verbs_carry_no_body
    {Srv : Type} (serve : Srv -> Request -> Reply * Srv)
    (this : Dashboard.t) (id : IResourceIdentifier) (options : IInvokeOptions)
    (given : list (string * value)) (v : verb) (w : World Srv) :
  name id <> VUndefined ->
  headers options = VObject given \/ (truthy (headers options) = false /\ given = []) ->
  axios_member (method options) = Some v ->
  takes_data v = false ->
  trace (snd (Dashboard.invokeFunction serve this id options w))
  = trace w ++
    [Http (mkRequest v (invocation_url this) VUndefined
             (VObject (invoke_headers id options given)))].
Proof.
  intros Hname Hheaders Hverb Hdata.
  erewrite invokeFunction_run by eauto. unfold wrapped. cbn [snd]. rewrite dispatch_run.
  assert (Hlist : existsb (String.eqb (method options)) ["post"; "put"; "path"] = false).
  { unfold axios_member in Hverb. cbn [existsb].
    destruct (String.eqb (method options) "post") eqn:Epost.
    - apply String.eqb_eq in Epost. rewrite Epost in Hverb. cbn in Hverb.
      injection Hverb as <-. discriminate.
    - destruct (String.eqb (method options) "put") eqn:Eput.
      + apply String.eqb_eq in Eput. rewrite Eput in Hverb. cbn in Hverb.
        injection Hverb as <-. discriminate.
      + destruct (String.eqb (method options) "path") eqn:Epath; [|reflexivity].
        apply String.eqb_eq in Epath. rewrite Epath in Hverb. discriminate. }
  rewrite Hlist. unfold verb_request. rewrite Hdata. reflexivity.
Qed.

Example invoke_post_carries_the_body :
  trace (snd (Dashboard.invokeFunction (serve_script [ok VNull]) local hello
                (invoke_with "post") (world0 0)))
  = [Http (mkRequest POST "http://localhost:8070/api/function_invocations"
             (VString "payload")
             (VObject [("x-nuclio-function-name", VString "hello");
                       ("x-nuclio-function-namespace", VString "nuclio");
                       ("x-nuclio-invoke-via", VString "external-ip")]))].
Proof. reflexivity. Qed.

Example invoke_get_carries_no_body :
  trace (snd (Dashboard.invokeFunction (serve_script [ok VNull]) local hello
                (invoke_with "get") (world0 0)))
  = [Http (mkRequest GET "http://localhost:8070/api/function_invocations"
             VUndefined
             (VObject [("x-nuclio-function-name", VString "hello");
                       ("x-nuclio-function-namespace", VString "nuclio");
                       ("x-nuclio-invoke-via", VString "external-ip")]))].
Proof. reflexivity. Qed.

(** ** The deploy command *)

Lemma split_never_empty (sep : ascii) (s : string) : Deploy.split sep s <> [].
Proof.
  induction s as [|c rest IH]; cbn; [discriminate|].
  destruct (Ascii.eqb c sep); [discriminate|].
  destruct (Deploy.split sep rest); [contradiction|discriminate].
Qed.

Lemma last_cons_nonempty {A} (x d : A) (l : list A) :
  l <> [] -> List.last (x :: l) d = List.last l d.
Proof. destruct l; [contradiction|reflexivity]. Qed.

Lemma append_cons (c : ascii) (a b : string) : String c a +:+ b = String c (a +:+ b).
Proof. reflexivity. Qed.

Lemma split_at_separator (sep : ascii) (a b : string) :
  exists first second more,
    Deploy.split sep (a +:+ String sep b) = first :: second :: more.
Proof.
  induction a as [|c rest (first & second & more & IH)].
  - change ("" +:+ String sep b) with (String sep b). cbn [Deploy.split].
    rewrite Ascii.eqb_refl. destruct (Deploy.split sep b) as [|second more] eqn:E.
    + now apply split_never_empty in E.
    + eauto.
  - rewrite append_cons. cbn [Deploy.split]. rewrite IH.
    destruct (Ascii.eqb c sep); eauto.
Qed.

Lemma last_after_separator (sep : ascii) (a b d : string) :
  List.last (Deploy.split sep (a +:+ String sep b)) d
  = List.last (Deploy.split sep b) d.
Proof.
  induction a as [|c rest IH].
  - change ("" +:+ String sep b) with (String sep b). cbn [Deploy.split].
    rewrite Ascii.eqb_refl. apply last_cons_nonempty, split_never_empty.
  - rewrite append_cons. cbn [Deploy.split].
    destruct (split_at_separator sep rest b) as (first & second & more & E).
    rewrite E in *. destruct (Ascii.eqb c sep); exact IH.
Qed.

(** A name that ends in [.yaml] has extension [yaml]. *)
Lemma getExtension_yaml (stem : string) :
  Deploy.getExtension (stem +:+ ".yaml") = "yaml".
Proof. unfold Deploy.getExtension. now rewrite last_after_separator. Qed.

Section DeployClaims.
Context {Srv : Type}.
Variable readdirSync : string -> option (list string).
Variable readJsonSync : string -> option value.
Variable readFileSync : string -> option string.
Variable path_join : string -> string -> string.
Variable base64_encode : string -> option string.

Lemma visit_directory (dir config source : string) (json : value)
    (text encoded : string) (files : list string) :
  files = [config; source] \/ files = [source; config] ->
  Deploy.getExtension config = "yaml" ->
  Deploy.getExtension source <> "yaml" ->
  readJsonSync (path_join dir config) = Some json ->
  readFileSync (path_join dir source) = Some text ->
  base64_encode text = Some encoded ->
  fold_left (Deploy.visit readJsonSync readFileSync path_join base64_encode dir)
    files (VUndefined, VUndefined)
  = (json, VString encoded).
Proof.
  intros Hfiles Hconfig Hsource Hjson Htext Hencoded.
  apply String.eqb_neq in Hsource.
  destruct Hfiles as [-> | ->]; cbn [fold_left]; unfold Deploy.visit;
    rewrite ?Hconfig, ?Hsource, ?Hjson, ?Htext, ?Hencoded; cbn;
    rewrite ?Hconfig, ?Hsource, ?Hjson, ?Htext, ?Hencoded; reflexivity.
Qed.

(** C9.  For a directory that lists exactly one file with extension
    [yaml] and one file with another extension (in either order), where
    [readJsonSync] parses the first into a configuration whose
    [spec.build] is an object and [base64.encode] accepts the text of the
    second, [deploy] writes the base64 encoding of that text into
    [spec.build.functionSourceCode] and calls the platform client's
    [createFunction] with the item's project name and that
    configuration, passed by reference as a fresh object. *)
Theorem C9_deploy_encodes_the_source_and_creates_the_function
    (item : Deploy.FunctionTreeItem Srv) (w : World Srv)
    (config source : string) (files : list string) (json : value)
    (text encoded : string) (build : list (string * value)) :
  readdirSync (Deploy.path (Deploy.functionConfig item)) = Some files ->
  files = [config; source] \/ files = [source; config] ->
  Deploy.getExtension config = "yaml" ->
  Deploy.getExtension source <> "yaml" ->
  readJsonSync (path_join (Deploy.path (Deploy.functionConfig item)) config) = Some json ->
  readFileSync (path_join (Deploy.path (Deploy.functionConfig item)) source) = Some text ->
  base64_encode text = Some encoded ->
  object_at json ["spec"; "build"] = Some build ->
  exists configuration,
    set_path json ["spec"; "build"] "functionSourceCode" (VString encoded)
      = Returned configuration /\
    at_path configuration ["spec"; "build"; "functionSourceCode"] = VString encoded /\
    Deploy.deploy readdirSync readJsonSync readFileSync path_join base64_encode item w =
    (let* _ :=
       createFunction (Deploy.dashboard item) (Deploy.projectName item)
         (fresh (dom (heap w))) in
     emit (ShowInformationMessage "Function deployed successfully") ;;;
     emit (AppendLine "Function deployed successfully"))
      (holding (fresh (dom (heap w))) configuration
         (logged [AppendLine "Reading files from directory";
                  AppendLine "Deploying function..."] w)).
Proof.
  intros Hdir Hfiles Hconfig Hsource Hjson Htext Hencoded Hbuild.
  destruct (set_path_object json ["spec"; "build"] "functionSourceCode"
              (VString encoded) build Hbuild) as (configuration & Hset & Hget & _).
  exists configuration. split; [exact Hset|]. split; [exact Hget|].
  unfold Deploy.deploy.
  erewrite bind_eq by reflexivity. cbv iota beta.
  erewrite bind_eq by (unfold lift; cbn [trace heap server]; rewrite Hdir; reflexivity).
  cbv iota beta.
  rewrite (visit_directory _ _ _ _ _ _ _ Hfiles Hconfig Hsource Hjson Htext Hencoded).
  erewrite bind_eq by (unfold lift; rewrite Hset; reflexivity). cbv iota beta.
  erewrite bind_eq by reflexivity. cbv iota beta.
  erewrite bind_eq by reflexivity. cbv iota beta.
  unfold holding, logged. cbn [heap server trace].
  now rewrite <- app_assoc.
Qed.
End DeployClaims.

(** ** The theorems at work *)

(** The error scenario: the first poll reports ["error"] with message
    ["build failed"]. *)
Lemma C1_witness :
  exists w',
    Dashboard.createFunction
      (serve_script [ok VNull; ok (function_in_state "error" "build failed")])
      json_text local "proj" 0 (world0 0)
    = (Threw (JsError "Creation failed: build failed"), w') /\
    polling_calls (since (world0 0) w') = 1.
Proof.
  destruct (C1_error_state_fails_at_once
              (serve_script [ok VNull; ok (function_in_state "error" "build failed")])
              json_text local "proj" 0 hello_config hello_props hello_metadata []
              (world0 0) (accepted VNull) 0
              (VObject (Object_assign FunctionConfig
                          (function_in_state "error" "build failed")))
              [] (VString "build failed")
              eq_refl eq_refl eq_refl
              ltac:(unfold Dashboard.maxRetries; lia)
              ltac:(intros j Hj; lia)
              eq_refl eq_refl eq_refl)
    as (w' & Hrun & _ & Hcalls).
  exists w'. split; [exact Hrun|exact Hcalls].
Defined.

(** A dashboard that keeps answering "building". *)
Lemma C2_witness :
  exists w',
    Dashboard.createFunction (serve_const (ok (function_in_state "building" "")))
      json_text local "proj" 0 (world0 tt)
    = (Returned VUndefined, w') /\
    polling_calls (since (world0 tt) w') = 60.
Proof.
  destruct (C2_silent_timeout_after_60_polls
              (serve_const (ok (function_in_state "building" "")))
              json_text local "proj" 0 hello_config hello_props hello_metadata []
              (world0 tt) (accepted (function_in_state "building" ""))
              eq_refl eq_refl eq_refl
              ltac:(intros j Hj; reflexivity))
    as (w' & Hrun & _ & Hcalls).
  exists w'. split; [exact Hrun|exact Hcalls].
Defined.

(** A dashboard that rejects everything. *)
Lemma C3_witness :
  fst (Dashboard.createFunction (serve_const not_found) json_text local "proj" 0 (world0 tt))
  = Threw (AxiosFailure (VString "Request failed with status code 404")) /\
  fst (Dashboard.attempt (serve_const not_found) local 0
         (holding 0 (with_project "proj" hello_props hello_metadata []) (world0 tt)))
  = Returned [].
Proof.
  destruct (C3_read_failure_swallowed_create_failure_propagates
              (serve_const not_found) json_text local "proj" 0 hello_config
              hello_props hello_metadata [] (world0 tt) eq_refl eq_refl)
    as (Hcreate & Hpoll & _).
  split.
  - rewrite (Hcreate _ eq_refl). reflexivity.
  - destruct (Hpoll (holding 0 (with_project "proj" hello_props hello_metadata [])
                       (world0 tt))
                (VString "Request failed with status code 404") 0 eq_refl eq_refl)
      as [Hattempt _].
    rewrite Hattempt. reflexivity.
Defined.

(** An invocation with method ["patch"] and body ["payload"]. *)
Lemma C4_witness :
    trace (snd (Dashboard.invokeFunction (serve_script [ok VNull]) local hello
                  (invoke_with "patch") (world0 0)))
    = [Http (mkRequest PATCH "http://localhost:8070/api/function_invocations"
               (VObject [("headers",
                  VObject [("x-nuclio-function-name", VString "hello");
                           ("x-nuclio-function-namespace", VString "nuclio");
                           ("x-nuclio-invoke-via", VString "external-ip")])])
               VUndefined)].
Proof.
    exact (C4_patch_request_carries_the_config_not_the_body
             (serve_script [ok VNull]) local hello (invoke_with "patch") [] (world0 0)
             ltac:(discriminate) (or_intror (conj eq_refl eq_refl)) eq_refl).
Defined.

Lemma function_in_state_distinct (state message : string) :
  distinct_keys (function_in_state state message).
Proof. apply (bool_decide_unpack _). vm_compute. exact I. Qed.

(** A dashboard that serves projects only. *)
Lemma C5_witness :
  (exists record,
     fst (Dashboard.getProjects (serve_script [ok (function_in_state "ready" "")]) local
            hello (world0 0))
     = Returned [VObject record] /\
     lookup_prop "status" record
     = Some (VObject [("state", VString "ready"); ("message", VString "")]) /\
     lookup_prop "spec" record = Some (VObject [])) /\
  (exists record,
     fst (Dashboard.getFunctions (serve_const (ok (function_in_state "ready" ""))) local
            (mkFunctionFilter hello (VString "proj")) (world0 tt))
     = Returned [VObject record] /\
     lookup_prop "status" record
     = Some (VObject [("state", VString "ready"); ("message", VString "")])).
Proof.
  split.
  - destruct (proj1 (C5_named_filter_yields_one_element
                       (serve_script [ok (function_in_state "ready" "")]) local hello
                       (mkFunctionFilter hello (VString "proj")) (world0 0))
                ltac:(discriminate) (accepted (function_in_state "ready" "")) eq_refl)
      as (record & Hrun & Hrecord).
    exists record. rewrite Hrun.
    specialize (Hrecord (function_in_state_distinct "ready" "")).
    split; [reflexivity|]. split; rewrite Hrecord; reflexivity.
  - destruct (proj2 (C5_named_filter_yields_one_element
                       (serve_const (ok (function_in_state "ready" ""))) local hello
                       (mkFunctionFilter hello (VString "proj")) (world0 tt))
                ltac:(discriminate) (accepted (function_in_state "ready" "")) eq_refl)
      as (record & Hrun & Hrecord).
    exists record. rewrite Hrun.
    specialize (Hrecord (function_in_state_distinct "ready" "")).
    split; [reflexivity|]. rewrite Hrecord; reflexivity.
Defined.

Lemma two_functions_distinct : NoDup (map fst two_functions).
Proof. apply (bool_decide_unpack _). vm_compute. exact I. Qed.

Lemma C6_witness :
  exists (resources : list value) (record : list (string * value)),
    fst (Dashboard.getFunctions (serve_const (ok (VObject two_functions))) local
           (mkFunctionFilter anonymous VUndefined) (world0 tt))
    = Returned resources /\
    length resources = 2 /\
    resources !! 1 = Some (VObject record) /\
    lookup_prop "status" record
    = Some (VObject [("state", VString "building"); ("message", VString "")]).
Proof.
  destruct (proj2 (C6_unnamed_filter_flattens_the_map
                     (serve_const (ok (VObject two_functions))) local anonymous
                     (mkFunctionFilter anonymous VUndefined) (world0 tt))
              eq_refl (accepted (VObject two_functions)) two_functions
              eq_refl eq_refl two_functions_distinct)
    as (resources & Hrun & Hlength & Hentries).
  destruct (Hentries 1 "bye" (function_in_state "building" "") eq_refl
              (function_in_state_distinct "building" ""))
    as (record & Hrecord & Hcarries & _).
  exists resources, record. rewrite Hrun.
  split; [reflexivity|]. split; [exact Hlength|]. split; [exact Hrecord|].
  apply Hcarries. reflexivity.
Defined.

Lemma C7_witness :
  Dashboard.deleteProject (serve_script []) json_text local anonymous (world0 0)
  = (Threw (JsError "Resource name must be specified in delete"), world0 0) /\
  Dashboard.invokeFunction (serve_script []) local anonymous (invoke_with "post") (world0 0)
  = (Threw (JsError "Function name must be specified in invoke"), world0 0).
Proof.
  destruct (C7_missing_name_rejected_before_any_request
              (serve_script []) json_text local anonymous
              (mkFunctionFilter anonymous VUndefined) (invoke_with "post") (world0 0)
              eq_refl eq_refl)
    as (Hproject & _ & Hinvoke).
  split; [exact Hproject|exact Hinvoke].
Defined.

Lemma C8_witness :
  exists cfg' later,
    at_path cfg' ["metadata"; "labels"; "nuclio.io/project-name"] = VString "proj" /\
    trace (snd (Dashboard.createFunction (serve_script [ok VNull]) json_text local "proj" 0
                  (world0 0)))
    = Http (mkRequest POST "http://localhost:8070/api/functions"
              (VString (json_text cfg')) VUndefined) :: later.
Proof.
  destruct (C8_project_label_written_before_create
              (serve_script [ok VNull]) json_text local "proj" 0 hello_config
              hello_props hello_metadata [] (world0 0) eq_refl eq_refl)
    as (cfg' & later & Hlabel & _ & _ & Htrace & _).
  exists cfg', later. split; [exact Hlabel|exact Htrace].
Defined.

Lemma C10_witness :
  exists props',
    heap (snd (Dashboard.createFunction (serve_script [ok VNull]) json_text local "proj" 0
                 (world0 0))) !! 0 = Some (VObject props') /\
    lookup_prop "spec" props'
    = Some (VObject [("runtime", VString "python"); ("build", VObject [])]).
Proof.
  destruct (C10_only_the_project_label_changes
              (serve_script [ok VNull]) json_text local "proj" 0 hello_config
              hello_props hello_metadata [] (world0 0) eq_refl eq_refl)
    as (props' & metadata' & labels' & Hheap & _ & _ & _ & Hframe & _).
  exists props'. split; [exact Hheap|]. rewrite Hframe by discriminate. reflexivity.
Defined.

(** The directory with [func.yaml] and [handler.py]. *)
Lemma C9_witness :
  exists configuration,
    at_path configuration ["spec"; "build"; "functionSourceCode"]
    = VString "ZGVmIGhhbmRsZXIoY29udGV4dCwgZXZlbnQpOiByZXR1cm4gJ2hpJw==" /\
    Deploy.deploy hello_listing hello_json hello_text join_with_slash base64_of
      (hello_item (serve_script [ok VNull])) (world0 0)
    = (let* _ :=
         Dashboard.createFunction (serve_script [ok VNull]) json_text local "proj" 1 in
       emit (ShowInformationMessage "Function deployed successfully") ;;;
       emit (AppendLine "Function deployed successfully"))
        (holding 1 configuration
           (logged [AppendLine "Reading files from directory";
                    AppendLine "Deploying function..."] (world0 0))).
Proof.
  destruct (C9_deploy_encodes_the_source_and_creates_the_function
              hello_listing hello_json hello_text join_with_slash base64_of
              (hello_item (serve_script [ok VNull])) (world0 0)
              "func.yaml" "handler.py" ["func.yaml"; "handler.py"] hello_config
              hello_source "ZGVmIGhhbmRsZXIoY29udGV4dCwgZXZlbnQpOiByZXR1cm4gJ2hpJw=="
              [] eq_refl (or_introl eq_refl) eq_refl ltac:(discriminate)
              eq_refl eq_refl eq_refl eq_refl)
    as (configuration & _ & Hsource & Hrun).
  exists configuration. split; [exact Hsource|exact Hrun].
Defined.

(** ** Where the specification goes too far *)

(** C2 does not hold of every backend that never reports ["ready"] or
    ["error"].  A dashboard that accepts everything and answers each read
    with a function whose [status] is [null] reports no terminal state,
    yet [createFunction] raises a TypeError at its first polling attempt:
    the state is read outside the [try].  A dashboard that rejects
    everything reports no terminal state either, and [createFunction]
    throws the rejection of the create request without polling at all. *)
Lemma C2_counterexample :
  ((forall (s : unit) (request : Request),
      reports_terminal (fst (serve_const (ok statusless) s request)) = false) /\
   fst (Dashboard.createFunction (serve_const (ok statusless)) json_text local "proj" 0
          (world0 tt))
   = Threw JsTypeError /\
   polling_calls
     (since (world0 tt)
        (snd (Dashboard.createFunction (serve_const (ok statusless)) json_text local
                "proj" 0 (world0 tt))))
   = 1) /\
  ((forall (s : unit) (request : Request),
      reports_terminal (fst (serve_const not_found s request)) = false) /\
   fst (Dashboard.createFunction (serve_const not_found) json_text local "proj" 0
          (world0 tt))
   = Threw (AxiosFailure (VString "Request failed with status code 404")) /\
   polling_calls
     (since (world0 tt)
        (snd (Dashboard.createFunction (serve_const not_found) json_text local
                "proj" 0 (world0 tt))))
   = 0).
Proof.
  split; (split; [intros s request; reflexivity|]); split; vm_compute; reflexivity.
Qed.

(** C9 does not hold of every directory with one [yaml] file and one
    source file.  When [func.yaml] is written in YAML, or parses to a
    configuration without [spec], [deploy] raises a TypeError after its
    first log line and never calls [createFunction].  When the source
    text is one [base64.encode] refuses, [createFunction] is called with
    a configuration whose [spec.build.functionSourceCode] is
    [undefined]. *)
Lemma C9_counterexample :
  Deploy.deploy hello_listing yaml_syntax hello_text join_with_slash base64_of
    (hello_item (serve_script [ok VNull])) (world0 0)
  = (Threw JsTypeError, logged [AppendLine "Reading files from directory"] (world0 0)) /\
  Deploy.deploy hello_listing specless_json hello_text join_with_slash base64_of
    (hello_item (serve_script [ok VNull])) (world0 0)
  = (Threw JsTypeError, logged [AppendLine "Reading files from directory"] (world0 0)) /\
  exists configuration,
    at_path configuration ["spec"; "build"; "functionSourceCode"] = VUndefined /\
    Deploy.deploy hello_listing hello_json hello_text join_with_slash refuses_text
      (hello_item (serve_script [ok VNull])) (world0 0)
    = (let* _ :=
         Dashboard.createFunction (serve_script [ok VNull]) json_text local "proj" 1 in
       emit (ShowInformationMessage "Function deployed successfully") ;;;
       emit (AppendLine "Function deployed successfully"))
        (holding 1 configuration
           (logged [AppendLine "Reading files from directory";
                    AppendLine "Deploying function..."] (world0 0))).
Proof.
  split; [reflexivity|]. split; [reflexivity|].
  exists (VObject [("metadata", VObject hello_metadata);
                   ("spec",
                    VObject [("runtime", VString "python");
                             ("build", VObject [("functionSourceCode", VUndefined)])])]).
  split; [reflexivity|]. vm_compute. reflexivity.
Qed.

(** ** Scenarios *)

Example ToString_array :
    ToString (VArray [VNumber 1; VNull; VString "a"; VArray [VNumber (-2); VBool true]])
    = "1,,a,-2,true".
Proof. reflexivity. Qed.

(** Array indices come first among the keys of a record, whatever was
    written when: here a text payload copied onto a fresh project. *)
Example Object_assign_text :
    map fst (Object_assign ProjectConfig (VString "ab")) = ["0"; "1"; "metadata"; "spec"] /\
    map fst (store_prop "10" VNull (store_prop "9" VNull (store_prop "b" VNull
               (store_prop "010" VNull (store_prop "2" VNull [])))))
    = ["2"; "9"; "10"; "010"; "b"].
Proof. split; reflexivity. Qed.

Example own_props_array :
    own_props (VArray [VNull; VBool true]) = [("0", VNull); ("1", VBool true)].
Proof. reflexivity. Qed.

Example getExtension_samples :
    map Deploy.getExtension ["func.yaml"; "handler.py"; "yaml"; "archive.tar.gz"; "trailing."]
    = ["yaml"; "py"; "yaml"; "gz"; ""].
Proof. reflexivity. Qed.

(** Not found twice, then "building", then "ready": the call returns what
      the fourth poll found, after four polling calls. *)
Example polling_scenario :
    let run :=
      Dashboard.createFunction
        (serve_script [ok VNull; not_found; not_found;
                       ok (function_in_state "building" "");
                       ok (function_in_state "ready" "")])
        json_text local "proj" 0 (world0 0) in
    fst run = Returned (VObject (Object_assign FunctionConfig (function_in_state "ready" "")))
    /\ polling_calls (since (world0 0) (snd run)) = 4.
Proof. split; reflexivity. Qed.

(** A payload whose [status] is [null] has no state to read: the loop's
      test of [status.state] raises, outside the [try]. *)
Example null_status_raises :
    fst (Dashboard.createFunction
           (serve_script [ok VNull; ok (VObject [("status", VNull)])])
           json_text local "proj" 0 (world0 0))
    = Threw JsTypeError.
Proof. reflexivity. Qed.

(** With two source candidates the one listed last wins. *)
Example last_source_wins :
    fold_left
      (Deploy.visit (fun _ => Some hello_config) (fun file => Some file)
         join_with_slash (fun text => Some text) "d")
      ["a.py"; "func.yaml"; "b.py"] (VUndefined, VUndefined)
    = (hello_config, VString "d/b.py").
Proof. reflexivity. Qed.

(** ** More of the client *)

Section Client.
Context {Srv : Type}.
Variable serve : Srv -> Request -> Reply * Srv.
Variable JSON_text : value -> string.

(** [createProject] hands axios one POST to [/api/projects] whose body is
    [JSON.stringify(projectConfig)], returns the response payload as it
    came, and lets a rejection through; it makes no other request. *)
Theorem createProject_posts_once_and_returns_the_payload
    (this : Dashboard.t) (projectConfig : value) (w : World Srv) :
  Dashboard.createProject serve JSON_text this projectConfig w =
  (match answer serve
           (mkRequest POST (Dashboard.url this +:+ "/api/projects")
              (Dashboard.JSON_stringify JSON_text projectConfig) VUndefined)
           (server w) with
   | Fulfilled response => Returned (resp_data response)
   | Rejected reason => Threw (AxiosFailure reason)
   end,
   mkWorld (heap w)
     (advance serve
        (mkRequest POST (Dashboard.url this +:+ "/api/projects")
           (Dashboard.JSON_stringify JSON_text projectConfig) VUndefined)
        (server w))
     (trace w ++
      [Http (mkRequest POST (Dashboard.url this +:+ "/api/projects")
               (Dashboard.JSON_stringify JSON_text projectConfig) VUndefined)])).
Proof.
  unfold Dashboard.createProject.
  erewrite bind_eq by (unfold Dashboard.axios; cbn [axios_member]; apply dispatch_run).
  change (verb_request POST (Dashboard.url this +:+ "/api/projects")
            [Dashboard.JSON_stringify JSON_text projectConfig])
    with (mkRequest POST (Dashboard.url this +:+ "/api/projects")
            (Dashboard.JSON_stringify JSON_text projectConfig) VUndefined).
  destruct (answer serve _ (server w)); reflexivity.
Qed.

Lemma deleteResource_run (this : Dashboard.t) (id : IResourceIdentifier)
    (resourceName : string) (resourceClass : list (string * value))
    (metadata : list (string * value)) (w : World Srv) :
  name id <> VUndefined ->
  lookup_prop "metadata" resourceClass = Some (VObject metadata) ->
  Dashboard.deleteResource serve JSON_text this id resourceName resourceClass w =
  (match answer serve
           (mkRequest DELETE (Dashboard.url this +:+ "/api/" +:+ resourceName +:+ "s")
              (VString (JSON_text
                 (VObject (store_prop "metadata"
                    (VObject (store_prop "namespace" (namespace id)
                       (store_prop "name" (name id) metadata)))
                    resourceClass))))
              VUndefined)
           (server w) with
   | Fulfilled response => Returned tt
   | Rejected reason => Threw (AxiosFailure reason)
   end,
   after serve
     (mkRequest DELETE (Dashboard.url this +:+ "/api/" +:+ resourceName +:+ "s")
        (VString (JSON_text
           (VObject (store_prop "metadata"
              (VObject (store_prop "namespace" (namespace id)
                 (store_prop "name" (name id) metadata)))
              resourceClass))))
        VUndefined) w).
Proof.
  intros Hname Hmd. unfold Dashboard.deleteResource.
  rewrite (is_undefined_false _ Hname).
  erewrite bind_eq by (unfold lift; rewrite (set_member _ _ _ _ _ Hmd); reflexivity).
  cbv iota beta.
  erewrite bind_eq
    by (unfold lift;
        rewrite (set_member _ _ "metadata" "namespace" _ (lookup_store_eq _ _ _));
        reflexivity).
  cbv iota beta. rewrite store_store.
  erewrite bind_eq by (unfold Dashboard.axios; cbn [axios_member]; apply dispatch_run).
  match goal with
  | |- context [answer serve ?r (server w)] =>
      change r with
        (mkRequest DELETE (Dashboard.url this +:+ "/api/" +:+ resourceName +:+ "s")
           (VString (JSON_text
              (VObject (store_prop "metadata"
                 (VObject (store_prop "namespace" (namespace id)
                    (store_prop "name" (name id) metadata)))
                 resourceClass))))
           VUndefined)
  end.
  destruct (answer serve _ (server w)); reflexivity.
Qed.

(** With [id.name] set, [deleteProject] and [deleteFunction] hand axios
    one DELETE to the collection URL ([/api/projects], [/api/functions]:
    the name is not part of the URL) whose payload serialises a fresh
    record carrying [metadata.name] and [metadata.namespace] and nothing
    else of the caller's; the call returns nothing on success and lets a
    rejection through. *)
Theorem delete_sends_the_identity_record
    (this : Dashboard.t) (id : IResourceIdentifier) (filter : IFunctionFilter)
    (w : World Srv) :
  name id <> VUndefined ->
  name filter <> VUndefined ->
  Dashboard.deleteProject serve JSON_text this id w =
    (match answer serve
             (mkRequest DELETE (Dashboard.url this +:+ "/api/projects")
                (VString (JSON_text
                   (VObject [("metadata",
                              VObject [("name", name id); ("namespace", namespace id)]);
                             ("spec", VObject [])])))
                VUndefined)
             (server w) with
     | Fulfilled response => Returned tt
     | Rejected reason => Threw (AxiosFailure reason)
     end,
     after serve
       (mkRequest DELETE (Dashboard.url this +:+ "/api/projects")
          (VString (JSON_text
             (VObject [("metadata",
                        VObject [("name", name id); ("namespace", namespace id)]);
                       ("spec", VObject [])])))
          VUndefined) w) /\
  Dashboard.deleteFunction serve JSON_text this filter w =
    (match answer serve
             (mkRequest DELETE (Dashboard.url this +:+ "/api/functions")
                (VString (JSON_text
                   (VObject [("metadata",
                              VObject [("name", name filter);
                                       ("namespace", namespace filter)]);
                             ("spec", VObject [("build", VObject [])]);
                             ("status", VObject [])])))
                VUndefined)
             (server w) with
     | Fulfilled response => Returned tt
     | Rejected reason => Threw (AxiosFailure reason)
     end,
     after serve
       (mkRequest DELETE (Dashboard.url this +:+ "/api/functions")
          (VString (JSON_text
             (VObject [("metadata",
                        VObject [("name", name filter);
                                 ("namespace", namespace filter)]);
                       ("spec", VObject [("build", VObject [])]);
                       ("status", VObject [])])))
          VUndefined) w).
Proof.
  intros Hid Hfilter. unfold Dashboard.deleteProject, Dashboard.deleteFunction. split.
  - now rewrite (deleteResource_run this id "project" ProjectConfig [] w Hid eq_refl).
  - now rewrite (deleteResource_run this filter "function" FunctionConfig [] w
                   Hfilter eq_refl).
Qed.
End Client.

(** ** More of the readiness polling *)

Section Polling.
Context {Srv : Type}.
Variable serve : Srv -> Request -> Reply * Srv.
Variable JSON_text : value -> string.

Lemma poll_skip (this : Dashboard.t) (l : loc) (cfg : value)
    (metadata : list (string * value)) (k : nat) :
  object_at cfg ["metadata"] = Some metadata ->
  forall (n : nat) (w : World Srv),
    heap w !! l = Some cfg ->
    (forall j, j < k ->
       nonterminal (polled serve this cfg (server w) j) = true) ->
    Dashboard.poll serve this l (k + n) w =
    Dashboard.poll serve this l n
      (mkWorld (heap w) (at_attempt serve (poll_request this cfg) k (server w))
         (trace w ++ rounds (poll_request this cfg) k)).
Proof.
  intros Hmd. induction k as [|k IH]; intros n w Hheap Hpending.
  - cbn [Nat.add]. destruct w. cbn. now rewrite app_nil_r.
  - cbn [Nat.add]. erewrite poll_continue; eauto; [|apply (Hpending 0); lia].
    rewrite IH; cbn [waited logged after heap server trace]; auto.
    + rewrite at_attempt_shift. unfold rounds, round. cbn [repeat concat].
      now rewrite <- !app_assoc.
    + intros j Hj. unfold polled. rewrite at_attempt_shift. apply Hpending. lia.
Qed.

Lemma poll_raises (this : Dashboard.t) (l : loc) (cfg : value)
    (metadata : list (string * value)) (n : nat) (w : World Srv)
    (f : value) (rest : list value) :
  heap w !! l = Some cfg ->
  object_at cfg ["metadata"] = Some metadata ->
  seen cfg (answer serve (poll_request this cfg) (server w)) = f :: rest ->
  state_of f = Threw JsTypeError ->
  Dashboard.poll serve this l (S n) w =
  (Threw JsTypeError, after serve (poll_request this cfg) w).
Proof.
  intros Hheap Hmd Hseen Hstate. cbn [Dashboard.poll].
  erewrite bind_eq by (eapply attempt_run; eauto). cbv iota beta. rewrite Hseen.
  unfold state_of in Hstate. unfold bind, lift.
  destruct (get_prop f "status") as [status| |]; cbn [obind] in Hstate;
    [|congruence|discriminate].
  now rewrite Hstate.
Qed.

Lemma poll_step (this : Dashboard.t) (l : loc) (cfg : value)
    (metadata : list (string * value)) (n : nat) (w : World Srv) :
  heap w !! l = Some cfg ->
  object_at cfg ["metadata"] = Some metadata ->
  Dashboard.poll serve this l (S n) w =
    Dashboard.poll serve this l n (waited serve (poll_request this cfg) w) \/
  snd (Dashboard.poll serve this l (S n) w) = after serve (poll_request this cfg) w.
Proof.
  intros Hheap Hmd. cbn [Dashboard.poll].
  erewrite bind_eq by (eapply attempt_run; eauto). cbv iota beta.
  destruct (seen cfg _) as [|f rest]; [left; reflexivity|].
  unfold bind, lift, throw, ret.
  destruct (get_prop f "status") as [status| |]; [|right; reflexivity..].
  destruct (get_prop status "state") as [state| |]; [|right; reflexivity..].
  destruct (is_string state "ready"); [right; reflexivity|].
  destruct (is_string state "error"); [|left; reflexivity].
  destruct (get_prop status "message"); right; reflexivity.
Qed.

Lemma poll_shape (this : Dashboard.t) (l : loc) (cfg : value)
    (metadata : list (string * value)) (n : nat) :
  object_at cfg ["metadata"] = Some metadata ->
  forall w : World Srv,
    heap w !! l = Some cfg ->
    exists k final,
      (final = [] \/ final = [Http (poll_request this cfg)]) /\
      k + length final <= n /\
      trace (snd (Dashboard.poll serve this l n w))
      = trace w ++ rounds (poll_request this cfg) k ++ final.
Proof.
  intros Hmd. induction n as [|n IH]; intros w Hheap.
  - exists 0, []. cbn. rewrite app_nil_r. auto.
  - destruct (poll_step this l cfg metadata n w Hheap Hmd) as [Hgo | Hstop].
    + rewrite Hgo.
      destruct (IH (waited serve (poll_request this cfg) w) Hheap)
        as (k & final & Hfinal & Hbound & Htrace).
      exists (S k), final. split; [assumption|]. split; [lia|].
      rewrite Htrace. cbn [waited logged after trace].
      unfold rounds, round. cbn [repeat concat]. now rewrite <- !app_assoc.
    + rewrite Hstop. exists 0, [Http (poll_request this cfg)].
      split; [auto|]. split; [cbn; lia|]. reflexivity.
Qed.

Lemma requests_app (a b : list Event) : requests (a ++ b) = requests a + requests b.
Proof. unfold requests. now rewrite filter_app, length_app. Qed.

Lemma requests_rounds (request : Request) (n : nat) : requests (rounds request n) = n.
Proof.
  induction n as [|n IH]; [reflexivity|].
  unfold rounds in *. cbn [repeat concat]. now rewrite requests_app, IH.
Qed.

(** X: success.  The first attempt that finds the function in state
    ["ready"] ends the call: [createFunction] returns the record that
    attempt built, having made [k + 1] polling calls and waited [k]
    times, [k] being the number of earlier attempts, none of which found
    a terminal state. *)
Theorem createFunction_returns_the_first_ready_function
    (this : Dashboard.t) (projectName : string) (l : loc) (cfg : value)
    (props metadata labels : list (string * value)) (w : World Srv)
    (response : Response) (k : nat) (f : value) (rest : list value) :
  heap w !! l = Some cfg ->
  config_parts cfg = Some (props, metadata, labels) ->
  answer serve
    (create_request this JSON_text (with_project projectName props metadata labels))
    (server w) = Fulfilled response ->
  k < Dashboard.maxRetries ->
  (forall j, j < k ->
     nonterminal
       (polled serve this (with_project projectName props metadata labels)
          (created serve
             (create_request this JSON_text
                (with_project projectName props metadata labels)) w) j) = true) ->
  polled serve this (with_project projectName props metadata labels)
    (created serve
       (create_request this JSON_text
          (with_project projectName props metadata labels)) w) k = f :: rest ->
  state_of f = Returned (VString "ready") ->
  exists w',
    Dashboard.createFunction serve JSON_text this projectName l w = (Returned f, w') /\
    trace w' =
      trace w ++
      Http (create_request this JSON_text
              (with_project projectName props metadata labels))
      :: rounds (poll_request this (with_project projectName props metadata labels)) k
      ++ [Http (poll_request this (with_project projectName props metadata labels))] /\
    polling_calls (since w w') = k + 1.
Proof.
  intros Hheap Hparts Hok Hk Hpending Hseen Hstate.
  rewrite (createFunction_accepted serve JSON_text _ _ _ _ _ _ _ _ _ Hheap Hparts Hok).
  pose proof (with_project_metadata projectName props metadata labels) as Hmd.
  replace Dashboard.maxRetries with (k + S (Dashboard.maxRetries - S k)) by lia.
  erewrite poll_skip; eauto; [|cbn [heap after holding]; apply lookup_insert_eq].
  erewrite poll_ready; eauto; [|cbn [heap]; apply lookup_insert_eq].
  eexists. split; [reflexivity|].
  cbn [trace after holding]. rewrite <- !app_assoc. split; [reflexivity|].
  erewrite since_app
    by (cbn [trace after holding]; rewrite <- !app_assoc; reflexivity).
  cbn [app]. rewrite polling_calls_create. apply polling_calls_last.
Qed.

(** X: a state that cannot be read.  When an attempt finds a function
    whose [status] is [null] (or otherwise has no readable [state]), the
    TypeError of [status.state] is raised outside the [try]: it ends
    [createFunction], after [k + 1] polling calls. *)
Theorem createFunction_raises_on_unreadable_status
    (this : Dashboard.t) (projectName : string) (l : loc) (cfg : value)
    (props metadata labels : list (string * value)) (w : World Srv)
    (response : Response) (k : nat) (f : value) (rest : list value) :
  heap w !! l = Some cfg ->
  config_parts cfg = Some (props, metadata, labels) ->
  answer serve
    (create_request this JSON_text (with_project projectName props metadata labels))
    (server w) = Fulfilled response ->
  k < Dashboard.maxRetries ->
  (forall j, j < k ->
     nonterminal
       (polled serve this (with_project projectName props metadata labels)
          (created serve
             (create_request this JSON_text
                (with_project projectName props metadata labels)) w) j) = true) ->
  polled serve this (with_project projectName props metadata labels)
    (created serve
       (create_request this JSON_text
          (with_project projectName props metadata labels)) w) k = f :: rest ->
  state_of f = Threw JsTypeError ->
  exists w',
    Dashboard.createFunction serve JSON_text this projectName l w
      = (Threw JsTypeError, w') /\
    polling_calls (since w w') = k + 1.
Proof.
  intros Hheap Hparts Hok Hk Hpending Hseen Hstate.
  rewrite (createFunction_accepted serve JSON_text _ _ _ _ _ _ _ _ _ Hheap Hparts Hok).
  pose proof (with_project_metadata projectName props metadata labels) as Hmd.
  replace Dashboard.maxRetries with (k + S (Dashboard.maxRetries - S k)) by lia.
  erewrite poll_skip; eauto; [|cbn [heap after holding]; apply lookup_insert_eq].
  erewrite poll_raises; eauto; [|cbn [heap]; apply lookup_insert_eq].
  eexists. split; [reflexivity|].
  erewrite since_app
    by (cbn [trace after holding]; rewrite <- !app_assoc; reflexivity).
  cbn [app]. rewrite polling_calls_create. apply polling_calls_last.
Qed.

(** X: no metadata.  When [functionConfig] is [undefined] or [null], or
    its [metadata] is, the first statement of [createFunction] raises a
    TypeError: no request is made and the caller's object is as it was. *)
Theorem createFunction_without_metadata_raises_before_any_request
    (this : Dashboard.t) (projectName : string) (l : loc) (cfg : value)
    (w : World Srv) :
  heap w !! l = Some cfg ->
  nullish cfg = true \/ nullish (prop_of cfg "metadata") = true ->
  Dashboard.createFunction serve JSON_text this projectName l w = (Threw JsTypeError, w).
Proof.
  intros Hheap Hbroken. unfold Dashboard.createFunction.
  erewrite bind_eq by (unfold deref; rewrite Hheap; reflexivity). cbv iota beta.
  unfold get_prop at 1. destruct (nullish cfg) eqn:Hcfg; [reflexivity|].
  destruct Hbroken as [|Hmd]; [discriminate|].
  erewrite bind_eq by reflexivity. cbv iota beta.
  unfold get_prop. rewrite Hmd. reflexivity.
Qed.

(** X: the shape of every run.  For any dashboard, a call of
    [createFunction] hands axios the create request, then at most 60
    polls, all of them the same GET, with a 1000 ms wait after every poll
    but possibly the last; it makes no other request. *)
Theorem createFunction_makes_at_most_60_identical_polls
    (this : Dashboard.t) (projectName : string) (l : loc) (cfg : value)
    (props metadata labels : list (string * value)) (w : World Srv) :
  heap w !! l = Some cfg ->
  config_parts cfg = Some (props, metadata, labels) ->
  exists k final,
    (final = [] \/
     final = [Http (poll_request this (with_project projectName props metadata labels))]) /\
    k + length final <= 60 /\
    since w (snd (Dashboard.createFunction serve JSON_text this projectName l w))
    = Http (create_request this JSON_text
              (with_project projectName props metadata labels))
      :: rounds (poll_request this (with_project projectName props metadata labels)) k
      ++ final /\
    polling_calls
      (since w (snd (Dashboard.createFunction serve JSON_text this projectName l w)))
    <= 60 /\
    requests
      (since w (snd (Dashboard.createFunction serve JSON_text this projectName l w)))
    <= 61.
Proof.
  intros Hheap Hparts.
  pose proof (with_project_metadata projectName props metadata labels) as Hmd.
  assert (Hshape : exists k final,
    (final = [] \/
     final = [Http (poll_request this (with_project projectName props metadata labels))]) /\
    k + length final <= 60 /\
    trace (snd (Dashboard.createFunction serve JSON_text this projectName l w))
    = trace w ++
      Http (create_request this JSON_text
              (with_project projectName props metadata labels))
      :: rounds (poll_request this (with_project projectName props metadata labels)) k
      ++ final).
  { destruct (answer serve
                (create_request this JSON_text
                   (with_project projectName props metadata labels)) (server w))
      as [response|reason] eqn:Hanswer.
    - rewrite (createFunction_accepted serve JSON_text _ _ _ _ _ _ _ _ _
                 Hheap Hparts Hanswer).
      destruct (poll_shape this l _ _ Dashboard.maxRetries Hmd
                  (after serve
                     (create_request this JSON_text
                        (with_project projectName props metadata labels))
                     (holding l (with_project projectName props metadata labels) w)))
        as (k & final & Hfinal & Hbound & Htrace);
        [cbn [heap after holding]; apply lookup_insert_eq|].
      exists k, final. split; [assumption|]. split; [exact Hbound|].
      rewrite Htrace. cbn [trace after holding]. now rewrite <- app_assoc.
    - rewrite (createFunction_rejected serve JSON_text _ _ _ _ _ _ _ _ _
                 Hheap Hparts Hanswer).
      exists 0, []. split; [auto|]. split; [cbn; lia|]. reflexivity. }
  destruct Hshape as (k & final & Hfinal & Hbound & Htrace).
  exists k, final. split; [assumption|]. split; [assumption|].
  rewrite (since_app _ _ _ Htrace). split; [reflexivity|].
  rewrite polling_calls_create.
  change (Http ?r :: ?t) with ([Http r] ++ t).
  rewrite polling_calls_app, !requests_app, requests_rounds.
  rewrite polling_calls_rounds by reflexivity.
  assert (Hone : forall r, requests [Http r] = 1) by reflexivity.
  assert (Hpoll : forall cfg', polling_calls [Http (poll_request this cfg')] = 1)
    by reflexivity.
  destruct Hfinal as [-> | ->]; rewrite ?Hone, ?Hpoll; cbn [length] in Hbound.
  - change (polling_calls []) with 0. change (requests []) with 0. lia.
  - lia.
Qed.
End Polling.

(** ** More of the reads *)

Section Reads.
Context {Srv : Type}.
Variable serve : Srv -> Request -> Reply * Srv.
Variable JSON_text : value -> string.

(** X: what a read asks.  [getProjects] and [getFunctions] hand axios
    exactly one GET, whatever the answer: to the collection URL, extended
    by [/<name>] when [filter.name] is set, with the namespace in the
    header [x-nuclio-<resource>-namespace] and, for functions, the project
    in [x-nuclio-project-name] when [filter.projectName] is set.  There
    is no payload and no retry. *)
Theorem reads_send_one_get_filtered_by_headers
    (this : Dashboard.t) (projects : IProjectFilter) (functions : IFunctionFilter)
    (w : World Srv) :
  since w (snd (Dashboard.getProjects serve this projects w))
  = [Http (mkRequest GET
             (Dashboard.url this +:+
                (if is_undefined (name projects) then "/api/projects"
                 else "/api/projects/" +:+ ToString (name projects)))
             VUndefined
             (VObject [("x-nuclio-project-namespace", namespace projects)]))] /\
  since w (snd (Dashboard.getFunctions serve this functions w))
  = [Http (mkRequest GET
             (Dashboard.url this +:+
                (if is_undefined (name functions) then "/api/functions"
                 else "/api/functions/" +:+ ToString (name functions)))
             VUndefined
             (VObject
                (if is_undefined (projectName functions)
                 then [("x-nuclio-function-namespace", namespace functions)]
                 else [("x-nuclio-project-name", projectName functions);
                       ("x-nuclio-function-namespace", namespace functions)])))].
Proof.
  rewrite getProjects_run, getFunctions_run. cbn [snd]. split.
  - erewrite since_app by reflexivity. unfold read_request.
    destruct (is_undefined (name projects)); reflexivity.
  - erewrite since_app by reflexivity. unfold read_request, project_header.
    destruct (is_undefined (name functions)), (is_undefined (projectName functions));
      reflexivity.
Qed.

Lemma assign_nothing (resourceClass : list (string * value)) (data : value) :
  own_props data = [] -> Object_assign resourceClass data = resourceClass.
Proof. intros H. unfold Object_assign. now rewrite H. Qed.

(** X: a named read of an empty payload.  With [filter.name] set, a
    payload with no members of its own ([null], a number, a boolean, [{}])
    still yields one element: a fresh record of the resource class. *)
Theorem named_read_of_an_empty_payload_yields_a_fresh_record
    (this : Dashboard.t) (filter : IResourceIdentifier) (resourceName : string)
    (resourceClass extra : list (string * value)) (headers : value)
    (found : Response) (w : World Srv) :
  headers = VObject extra \/ (truthy headers = false /\ extra = []) ->
  name filter <> VUndefined ->
  answer serve (read_request this resourceName filter extra) (server w)
    = Fulfilled found ->
  own_props (resp_data found) = [] ->
  Dashboard.getResources serve this filter resourceName resourceClass headers w
  = (Returned [VObject resourceClass],
     after serve (read_request this resourceName filter extra) w).
Proof.
  intros Hheaders Hname Hanswer Hempty.
  rewrite (getResources_run serve this filter resourceName resourceClass headers extra w
             Hheaders), Hanswer.
  rewrite (is_undefined_false _ Hname). cbn [negb].
  now rewrite resources_of_single, assign_nothing.
Qed.

(** X: an unnamed read of [null].  With [filter.name] unset, a payload
    that is [null] or [undefined] makes [Object.keys] raise a TypeError:
    the read throws, after its one request. *)
Theorem unnamed_read_of_null_raises
    (this : Dashboard.t) (filter : IResourceIdentifier) (resourceName : string)
    (resourceClass extra : list (string * value)) (headers : value)
    (found : Response) (w : World Srv) :
  headers = VObject extra \/ (truthy headers = false /\ extra = []) ->
  name filter = VUndefined ->
  answer serve (read_request this resourceName filter extra) (server w)
    = Fulfilled found ->
  nullish (resp_data found) = true ->
  Dashboard.getResources serve this filter resourceName resourceClass headers w
  = (Threw JsTypeError, after serve (read_request this resourceName filter extra) w).
Proof.
  intros Hheaders Hname Hanswer Hnull.
  rewrite (getResources_run serve this filter resourceName resourceClass headers extra w
             Hheaders), Hanswer, Hname.
  cbn [is_undefined negb]. unfold resources_of, Object_keys. now rewrite Hnull.
Qed.

(** X: an unnamed read of an empty map.  With [filter.name] unset, a
    payload other than [null] that has no members of its own yields the
    empty sequence. *)
Theorem unnamed_read_of_an_empty_map_is_empty
    (this : Dashboard.t) (filter : IResourceIdentifier) (resourceName : string)
    (resourceClass extra : list (string * value)) (headers : value)
    (found : Response) (w : World Srv) :
  headers = VObject extra \/ (truthy headers = false /\ extra = []) ->
  name filter = VUndefined ->
  answer serve (read_request this resourceName filter extra) (server w)
    = Fulfilled found ->
  nullish (resp_data found) = false ->
  own_props (resp_data found) = [] ->
  Dashboard.getResources serve this filter resourceName resourceClass headers w
  = (Returned [], after serve (read_request this resourceName filter extra) w).
Proof.
  intros Hheaders Hname Hanswer Hnull Hempty.
  rewrite (getResources_run serve this filter resourceName resourceClass headers extra w
             Hheaders), Hanswer, Hname.
  cbn [is_undefined negb]. unfold resources_of, Object_keys.
  now rewrite Hnull, Hempty.
Qed.

(** X: defaults and shallow copies.  The record a named read builds from
    an object payload has, under every name, the payload's member when it
    has one (taken whole: nested defaults are not merged) and otherwise
    what the constructor of the resource class defined. *)
Theorem read_record_takes_payload_members_over_constructor_defaults
    (this : Dashboard.t) (filter : IResourceIdentifier) (resourceName : string)
    (resourceClass extra : list (string * value)) (headers : value)
    (found : Response) (members : list (string * value)) (w : World Srv) :
  headers = VObject extra \/ (truthy headers = false /\ extra = []) ->
  name filter <> VUndefined ->
  answer serve (read_request this resourceName filter extra) (server w)
    = Fulfilled found ->
  resp_data found = VObject members ->
  NoDup (map fst members) ->
  exists record,
    Dashboard.getResources serve this filter resourceName resourceClass headers w
    = (Returned [VObject record],
       after serve (read_request this resourceName filter extra) w) /\
    forall field,
      lookup_prop field record
      = match lookup_prop field members with
        | Some x => Some x
        | None => lookup_prop field resourceClass
        end.
Proof.
  intros Hheaders Hname Hanswer Hdata Hdistinct.
  exists (Object_assign resourceClass (VObject members)). split.
  - rewrite (getResources_run serve this filter resourceName resourceClass headers extra
               w Hheaders), Hanswer, Hdata.
    rewrite (is_undefined_false _ Hname). cbn [negb].
    now rewrite resources_of_single.
  - intros field. unfold Object_assign. cbn [own_props]. now apply assign_lookup.
Qed.

(** X: a function without status.  In the polling loop, a found function
    whose payload has no [status] member keeps the constructor's empty
    status, so its state reads [undefined]: the attempt is not terminal
    and the loop waits and goes on. *)
Theorem function_without_status_keeps_the_loop_going
    (this : Dashboard.t) (l : loc) (cfg : value) (metadata : list (string * value))
    (found : Response) (members : list (string * value)) (n : nat) (w : World Srv) :
  heap w !! l = Some cfg ->
  object_at cfg ["metadata"] = Some metadata ->
  at_path cfg ["metadata"; "name"] <> VUndefined ->
  answer serve (poll_request this cfg) (server w) = Fulfilled found ->
  resp_data found = VObject members ->
  NoDup (map fst members) ->
  lookup_prop "status" members = None ->
  Dashboard.poll serve this l (S n) w =
  Dashboard.poll serve this l n (waited serve (poll_request this cfg) w).
Proof.
  intros Hheap Hmd Hdefined Hanswer Hdata Hdistinct Hstatus.
  eapply poll_continue; eauto. rewrite Hanswer. unfold seen. rewrite Hdata.
  assert (Hnamed : is_undefined (name (poll_filter cfg)) = false)
    by (apply is_undefined_false; exact Hdefined).
  rewrite Hnamed. cbn [negb]. rewrite resources_of_single. cbn [nonterminal].
  unfold state_of, get_prop, prop_of. cbn [nullish own_props obind].
  unfold Object_assign. cbn [own_props].
  rewrite assign_lookup by assumption. rewrite Hstatus. reflexivity.
Qed.
End Reads.

(** ** More of the invocation and of the label *)

Section Invocation.
Context {Srv : Type}.
Variable serve : Srv -> Request -> Reply * Srv.
Variable JSON_text : value -> string.

Lemma axios_member_post_put (method_name : string) (v : verb) :
  axios_member method_name = Some v ->
  v = POST \/ v = PUT ->
  method_name = "post" \/ method_name = "put".
Proof.
  unfold axios_member. intros Hmember Hverb.
  repeat match type of Hmember with
         | (if String.eqb ?a ?b then _ else _) = _ =>
             let E := fresh "E" in
             destruct (String.eqb a b) eqn:E;
             [apply String.eqb_eq in E; injection Hmember as <-;
              destruct Hverb; try discriminate; auto|]
         end.
  discriminate.
Qed.

Lemma invoke_headers_lookup (id : IResourceIdentifier) (options : IInvokeOptions)
    (given : list (string * value)) :
  lookup_prop "x-nuclio-function-name" (invoke_headers id options given)
    = Some (name id) /\
  lookup_prop "x-nuclio-function-namespace" (invoke_headers id options given)
    = Some (namespace id) /\
  lookup_prop "x-nuclio-invoke-via" (invoke_headers id options given)
    = Some (if truthy (via options) then via options else VString "external-ip") /\
  lookup_prop "x-nuclio-path" (invoke_headers id options given)
    = (if is_undefined (path options) then lookup_prop "x-nuclio-path" given
       else Some (path options)) /\
  forall k,
    k <> "x-nuclio-function-name" -> k <> "x-nuclio-function-namespace" ->
    k <> "x-nuclio-invoke-via" -> k <> "x-nuclio-path" ->
    lookup_prop k (invoke_headers id options given) = lookup_prop k given.
Proof.
  unfold invoke_headers. cbv zeta.
  destruct (is_undefined (path options));
    repeat split; intros;
    repeat first
      [ rewrite lookup_store_eq
      | rewrite lookup_store_ne by (first [discriminate | congruence]) ];
    reflexivity.
Qed.

(** X: who is invoked.  For [get], [delete], [head], [options], [post]
    and [put], [invokeFunction] hands axios one request to
    [/api/function_invocations] whose headers are the caller's with
    [x-nuclio-function-name] set to [id.name],
    [x-nuclio-function-namespace] to [id.namespace],
    [x-nuclio-invoke-via] to [options.via] or, when that is missing,
    ["external-ip"], and [x-nuclio-path] to [options.path] when that is
    given; these four override the caller's, every other header is the
    caller's own. *)
Theorem invocation_headers_identify_the_function
    (this : Dashboard.t) (id : IResourceIdentifier) (options : IInvokeOptions)
    (given : list (string * value)) (v : verb) (w : World Srv) :
  name id <> VUndefined ->
  headers options = VObject given \/ (truthy (headers options) = false /\ given = []) ->
  axios_member (method options) = Some v ->
  v <> PATCH ->
  exists request sent,
    since w (snd (Dashboard.invokeFunction serve this id options w)) = [Http request] /\
    req_verb request = v /\
    req_url request = Dashboard.url this +:+ "/api/function_invocations" /\
    req_headers request = VObject sent /\
    lookup_prop "x-nuclio-function-name" sent = Some (name id) /\
    lookup_prop "x-nuclio-function-namespace" sent = Some (namespace id) /\
    lookup_prop "x-nuclio-invoke-via" sent
      = Some (if truthy (via options) then via options else VString "external-ip") /\
    lookup_prop "x-nuclio-path" sent
      = (if is_undefined (path options) then lookup_prop "x-nuclio-path" given
         else Some (path options)) /\
    forall k,
      k <> "x-nuclio-function-name" -> k <> "x-nuclio-function-namespace" ->
      k <> "x-nuclio-invoke-via" -> k <> "x-nuclio-path" ->
      lookup_prop k sent = lookup_prop k given.
Proof.
  intros Hname Hheaders Hmember Hverb.
  assert (Hsent : exists data,
    trace (snd (Dashboard.invokeFunction serve this id options w))
    = trace w ++
      [Http (mkRequest v (invocation_url this) data
               (VObject (invoke_headers id options given)))]).
  { destruct (takes_data v) eqn:Hdata.
    - assert (Hpp : v = POST \/ v = PUT) by (destruct v; try discriminate; auto; congruence).
      destruct (invoke_post_put_carry_the_body serve this id options given w
                  Hname Hheaders (axios_member_post_put _ _ Hmember Hpp))
        as (v' & Hmember' & Htrace).
      rewrite Hmember in Hmember'. injection Hmember' as <-. eauto.
    - exists VUndefined.
      exact (invoke_other_verbs_carry_no_body serve this id options given v w
               Hname Hheaders Hmember Hdata). }
  destruct Hsent as (data & Htrace).
  eexists _, (invoke_headers id options given).
  split; [exact (since_app _ _ _ Htrace)|].
  repeat (split; [reflexivity|]). apply invoke_headers_lookup.
Qed.

(** X: what comes back.  Whatever the verb, [invokeFunction] makes one
    request; it returns the response's status, headers and payload as
    [statusCode], [headers] and [body], unchanged, and lets a rejection
    through. *)
Theorem invocation_wraps_the_response_as_it_came
    (this : Dashboard.t) (id : IResourceIdentifier) (options : IInvokeOptions)
    (given : list (string * value)) (v : verb) (w : World Srv) :
  name id <> VUndefined ->
  headers options = VObject given \/ (truthy (headers options) = false /\ given = []) ->
  axios_member (method options) = Some v ->
  exists request,
    since w (snd (Dashboard.invokeFunction serve this id options w)) = [Http request] /\
    req_verb request = v /\
    fst (Dashboard.invokeFunction serve this id options w)
    = match answer serve request (server w) with
      | Fulfilled response =>
          Returned (mkInvokeResult (resp_status response) (resp_headers response)
                      (resp_data response))
      | Rejected reason => Threw (AxiosFailure reason)
      end.
Proof.
  intros Hname Hheaders Hmember.
  rewrite (invokeFunction_run serve this id options given v w Hname Hheaders Hmember).
  unfold wrapped. cbn [fst snd]. rewrite dispatch_run. cbn [fst snd].
  eexists. split; [apply since_app; reflexivity|]. split.
  - unfold verb_request. destruct (takes_data v); reflexivity.
  - destruct (answer serve _ (server w)); reflexivity.
Qed.

Lemma createFunction_heap (this : Dashboard.t) (projectName : string) (l : loc)
    (cfg : value) (props metadata labels : list (string * value)) (w : World Srv) :
  heap w !! l = Some cfg ->
  config_parts cfg = Some (props, metadata, labels) ->
  heap (snd (Dashboard.createFunction serve JSON_text this projectName l w))
  = <[l := with_project projectName props metadata labels]> (heap w).
Proof.
  intros Hheap Hparts.
  destruct (answer serve
              (create_request this JSON_text
                 (with_project projectName props metadata labels)) (server w))
    as [response|reason] eqn:Hanswer.
  - rewrite (createFunction_accepted serve JSON_text _ _ _ _ _ _ _ _ _
               Hheap Hparts Hanswer).
    now rewrite (proj1 (orderly_poll serve this l Dashboard.maxRetries _)).
  - now rewrite (createFunction_rejected serve JSON_text _ _ _ _ _ _ _ _ _
                   Hheap Hparts Hanswer).
Qed.

Lemma config_parts_with_project (projectName : string)
    (props metadata labels : list (string * value)) :
  config_parts (with_project projectName props metadata labels)
  = Some (store_prop "metadata"
            (VObject (store_prop "labels"
               (VObject (store_prop Dashboard.project_label (VString projectName) labels))
               metadata)) props,
          store_prop "labels"
            (VObject (store_prop Dashboard.project_label (VString projectName) labels))
            metadata,
          store_prop Dashboard.project_label (VString projectName) labels).
Proof.
  unfold with_project, config_parts. rewrite lookup_store_eq.
  rewrite lookup_store_eq. reflexivity.
Qed.

(** X: creating again.  A second [createFunction] on the same object
    overwrites the project label and nothing else: the object ends as if
    only the second call had been made, and with the same project name it
    ends as the first call left it. *)
Theorem createFunction_again_only_overwrites_the_label
    (this : Dashboard.t) (first second : string) (l : loc) (cfg : value)
    (props metadata labels : list (string * value)) (w : World Srv) :
  heap w !! l = Some cfg ->
  config_parts cfg = Some (props, metadata, labels) ->
  heap (snd (Dashboard.createFunction serve JSON_text this second l
               (snd (Dashboard.createFunction serve JSON_text this first l w))))
  = <[l := with_project second props metadata labels]> (heap w) /\
  heap (snd (Dashboard.createFunction serve JSON_text this first l
               (snd (Dashboard.createFunction serve JSON_text this first l w))))
  = heap (snd (Dashboard.createFunction serve JSON_text this first l w)).
Proof.
  intros Hheap Hparts.
  assert (Hagain : forall again,
    heap (snd (Dashboard.createFunction serve JSON_text this again l
                 (snd (Dashboard.createFunction serve JSON_text this first l w))))
    = <[l := with_project again props metadata labels]> (heap w)).
  { intros again.
    pose proof (createFunction_heap this first l cfg props metadata labels w Hheap Hparts)
      as Hfirst.
    rewrite (createFunction_heap this again l (with_project first props metadata labels)
               _ _ _ _
               ltac:(rewrite Hfirst; apply lookup_insert_eq)
               (config_parts_with_project first props metadata labels)).
    rewrite Hfirst, insert_insert_eq. unfold with_project.
    do 3 rewrite store_store. reflexivity. }
  split; [apply Hagain|].
  rewrite Hagain.
  now rewrite (createFunction_heap this first l cfg props metadata labels w Hheap Hparts).
Qed.
End Invocation.

(** ** More of the deploy command *)

Lemma split_dotless (s : string) : dotless s = true -> Deploy.split "." s = [s].
Proof.
  induction s as [|c rest IH]; [reflexivity|]. cbn [dotless Deploy.split].
  intros H. apply andb_prop in H as [Hc Hrest]. apply negb_true_iff in Hc.
  rewrite Hc, (IH Hrest). reflexivity.
Qed.

Lemma split_segments_dotless (s : string) :
  Forall (fun segment => dotless segment = true) (Deploy.split "." s).
Proof.
  induction s as [|c rest IH]; cbn [Deploy.split]; [repeat constructor|].
  destruct (Ascii.eqb c ".") eqn:Hc; [constructor; auto|].
  destruct (Deploy.split "." rest) as [|segment segments]; [repeat constructor; cbn; now rewrite Hc|].
  apply Forall_cons in IH as [Hsegment Hsegments].
  constructor; [|assumption]. cbn [dotless]. now rewrite Hc, Hsegment.
Qed.

Lemma last_of_all {A} (P : A -> Prop) (l : list A) (d : A) :
  P d -> Forall P l -> P (List.last l d).
Proof.
  intros Hd Hl. induction Hl as [|x l Hx Hl IH]; [exact Hd|].
  destruct l; [exact Hx|exact IH].
Qed.

(** X: the extension.  [getExtension] returns the text after the last
    dot of the name, and the whole name when it has no dot (a file called
    [yaml] has extension [yaml]); what it returns never contains a
    dot. *)
Theorem getExtension_is_the_text_after_the_last_dot (stem ext : string) :
  dotless ext = true ->
  Deploy.getExtension (stem +:+ "." +:+ ext) = ext /\
  Deploy.getExtension ext = ext /\
  forall name, dotless (Deploy.getExtension name) = true.
Proof.
  intros Hext. unfold Deploy.getExtension. split; [|split].
  - change ("." +:+ ext) with (String "." ext).
    rewrite last_after_separator. now rewrite split_dotless.
  - now rewrite split_dotless.
  - intros name.
    apply (last_of_all (fun segment => dotless segment = true));
      [reflexivity|apply split_segments_dotless].
Qed.

Section DeployMore.
Context {Srv : Type}.
Variable readdirSync : string -> option (list string).
Variable readJsonSync : string -> option value.
Variable readFileSync : string -> option string.
Variable path_join : string -> string -> string.
Variable base64_encode : string -> option string.

(** X: no directory.  When the directory cannot be listed, [deploy]
    throws after its first log line: it reads no file, calls nothing on
    the platform client and reports nothing. *)
Theorem deploy_of_an_unlistable_directory_throws
    (item : Deploy.FunctionTreeItem Srv) (w : World Srv) :
  readdirSync (Deploy.path (Deploy.functionConfig item)) = None ->
  Deploy.deploy readdirSync readJsonSync readFileSync path_join base64_encode item w
  = (Threw FsFailure, logged [AppendLine "Reading files from directory"] w).
Proof.
  intros Hdir. unfold Deploy.deploy.
  erewrite bind_eq by reflexivity. cbv iota beta.
  erewrite bind_eq by (unfold lift; cbn [trace heap server]; rewrite Hdir; reflexivity).
  reflexivity.
Qed.

Lemma visit_source_keeps_config (dir file : string) (captured : value * value) :
  Deploy.getExtension file <> "yaml" \/ readJsonSync (path_join dir file) = None ->
  fst (Deploy.visit readJsonSync readFileSync path_join base64_encode dir captured file)
  = fst captured.
Proof.
  intros H. unfold Deploy.visit. destruct captured as [configFile codeFile].
  destruct (String.eqb (Deploy.getExtension file) "yaml") eqn:E.
  - apply String.eqb_eq in E. destruct H as [H|H]; [contradiction|]. now rewrite H.
  - destruct (readFileSync _) as [text|]; [|reflexivity].
    destruct (base64_encode text); reflexivity.
Qed.

Lemma visit_config_keeps_source (dir file : string) (captured : value * value) :
  Deploy.getExtension file = "yaml" \/
  readFileSync (path_join dir file) = None \/
  (exists text,
     readFileSync (path_join dir file) = Some text /\ base64_encode text = None) ->
  snd (Deploy.visit readJsonSync readFileSync path_join base64_encode dir captured file)
  = snd captured.
Proof.
  intros H. unfold Deploy.visit. destruct captured as [configFile codeFile].
  destruct (String.eqb (Deploy.getExtension file) "yaml") eqn:E.
  - destruct (readJsonSync _); reflexivity.
  - destruct H as [H|[H|(text & Htext & Hencoded)]].
    + apply String.eqb_eq in H. congruence.
    + now rewrite H.
    + now rewrite Htext, Hencoded.
Qed.

Lemma visits_keep_config (dir : string) (files : list string) (captured : value * value) :
  Forall (fun file =>
            Deploy.getExtension file <> "yaml" \/
            readJsonSync (path_join dir file) = None) files ->
  fst (fold_left (Deploy.visit readJsonSync readFileSync path_join base64_encode dir)
         files captured)
  = fst captured.
Proof.
  intros H. revert captured. induction H as [|file files Hfile _ IH]; intros captured.
  - reflexivity.
  - cbn [fold_left]. rewrite IH. now apply visit_source_keeps_config.
Qed.

Lemma visits_keep_source (dir : string) (files : list string) (captured : value * value) :
  Forall (fun file =>
            Deploy.getExtension file = "yaml" \/
            readFileSync (path_join dir file) = None \/
            (exists text,
               readFileSync (path_join dir file) = Some text /\
               base64_encode text = None)) files ->
  snd (fold_left (Deploy.visit readJsonSync readFileSync path_join base64_encode dir)
         files captured)
  = snd captured.
Proof.
  intros H. revert captured. induction H as [|file files Hfile _ IH]; intros captured.
  - reflexivity.
  - cbn [fold_left]. rewrite IH. now apply visit_config_keeps_source.
Qed.

(** X: no configuration.  When no listed file has extension [yaml] and
    parses, [configFile] stays [undefined] and the assignment to
    [configFile.spec.build] raises a TypeError: [deploy] throws after its
    first log line, and nothing is created or reported. *)
Theorem deploy_without_a_configuration_file_raises
    (item : Deploy.FunctionTreeItem Srv) (w : World Srv) (files : list string) :
  readdirSync (Deploy.path (Deploy.functionConfig item)) = Some files ->
  Forall (fun file =>
            Deploy.getExtension file <> "yaml" \/
            readJsonSync (path_join (Deploy.path (Deploy.functionConfig item)) file)
            = None) files ->
  Deploy.deploy readdirSync readJsonSync readFileSync path_join base64_encode item w
  = (Threw JsTypeError, logged [AppendLine "Reading files from directory"] w).
Proof.
  intros Hdir Hfiles. unfold Deploy.deploy.
  erewrite bind_eq by reflexivity. cbv iota beta.
  erewrite bind_eq by (unfold lift; cbn [trace heap server]; rewrite Hdir; reflexivity).
  cbv iota beta.
  pose proof (visits_keep_config _ _ (VUndefined, VUndefined) Hfiles) as Hconfig.
  destruct (fold_left _ files (VUndefined, VUndefined)) as [configFile codeFile].
  cbn [fst] in Hconfig. subst configFile. reflexivity.
Qed.

(** X: the last file of each kind wins.  Of the listed files that are
    read successfully, the last one with extension [yaml] supplies the
    configuration, and the last one with another extension supplies the
    source code, whatever was listed before them.  A later file counts
    for neither when it is of the other kind or when reading it fails: a
    [yaml] file that does not parse, another file that cannot be read or
    whose text cannot be encoded. *)
Theorem last_listed_file_of_each_kind_wins
    (dir : string) (files before_config after_config before_source after_source : list string)
    (config source : string) (json : value) (text encoded : string) :
  files = before_config ++ config :: after_config ->
  Deploy.getExtension config = "yaml" ->
  readJsonSync (path_join dir config) = Some json ->
  Forall (fun file =>
            Deploy.getExtension file <> "yaml" \/
            readJsonSync (path_join dir file) = None) after_config ->
  files = before_source ++ source :: after_source ->
  Deploy.getExtension source <> "yaml" ->
  readFileSync (path_join dir source) = Some text ->
  base64_encode text = Some encoded ->
  Forall (fun file =>
            Deploy.getExtension file = "yaml" \/
            readFileSync (path_join dir file) = None \/
            (exists text,
               readFileSync (path_join dir file) = Some text /\
               base64_encode text = None)) after_source ->
  fold_left (Deploy.visit readJsonSync readFileSync path_join base64_encode dir)
    files (VUndefined, VUndefined)
  = (json, VString encoded).
Proof.
  intros Hc Hcext Hjson Hcrest Hs Hsext Htext Hencoded Hsrest.
  apply String.eqb_neq in Hsext.
  apply injective_projections.
  - rewrite Hc, fold_left_app. cbn [fold_left]. rewrite visits_keep_config by assumption.
    unfold Deploy.visit. destruct (fold_left _ before_config _) as [configFile codeFile].
    now rewrite Hcext, Hjson.
  - rewrite Hs, fold_left_app. cbn [fold_left]. rewrite visits_keep_source by assumption.
    unfold Deploy.visit. destruct (fold_left _ before_source _) as [configFile codeFile].
    now rewrite Hsext, Htext, Hencoded.
Qed.

Lemma deploy_run (item : Deploy.FunctionTreeItem Srv) (w : World Srv)
    (files : list string) (configuration : value) :
  readdirSync (Deploy.path (Deploy.functionConfig item)) = Some files ->
  set_path
    (fst (fold_left
            (Deploy.visit readJsonSync readFileSync path_join base64_encode
               (Deploy.path (Deploy.functionConfig item)))
            files (VUndefined, VUndefined)))
    ["spec"; "build"] "functionSourceCode"
    (snd (fold_left
            (Deploy.visit readJsonSync readFileSync path_join base64_encode
               (Deploy.path (Deploy.functionConfig item)))
            files (VUndefined, VUndefined)))
  = Returned configuration ->
  Deploy.deploy readdirSync readJsonSync readFileSync path_join base64_encode item w =
  (let* _ :=
     createFunction (Deploy.dashboard item) (Deploy.projectName item)
       (fresh (dom (heap w))) in
   emit (ShowInformationMessage "Function deployed successfully") ;;;
   emit (AppendLine "Function deployed successfully"))
    (holding (fresh (dom (heap w))) configuration
       (logged [AppendLine "Reading files from directory";
                AppendLine "Deploying function..."] w)).
Proof.
  intros Hdir Hset. unfold Deploy.deploy.
  erewrite bind_eq by reflexivity. cbv iota beta.
  erewrite bind_eq by (unfold lift; cbn [trace heap server]; rewrite Hdir; reflexivity).
  cbv iota beta.
  destruct (fold_left _ files (VUndefined, VUndefined)) as [configFile codeFile].
  cbn [fst snd] in Hset.
  erewrite bind_eq by (unfold lift; rewrite Hset; reflexivity). cbv iota beta.
  erewrite bind_eq by reflexivity. cbv iota beta.
  erewrite bind_eq by reflexivity. cbv iota beta.
  unfold holding, logged. cbn [heap server trace].
  now rewrite <- app_assoc.
Qed.

(** X: what is reported.  Once the directory has yielded a
    configuration, [deploy] reports success (the notification, then the
    log line) exactly when [createFunction] returns, whatever it returns,
    [undefined] after a timeout included; when [createFunction] throws,
    [deploy] throws the same and reports nothing. *)
Theorem deploy_reports_success_whenever_createFunction_returns
    (item : Deploy.FunctionTreeItem Srv) (w w' : World Srv)
    (files : list string) (configuration : value) (result : outcome value) :
  readdirSync (Deploy.path (Deploy.functionConfig item)) = Some files ->
  set_path
    (fst (fold_left
            (Deploy.visit readJsonSync readFileSync path_join base64_encode
               (Deploy.path (Deploy.functionConfig item)))
            files (VUndefined, VUndefined)))
    ["spec"; "build"] "functionSourceCode"
    (snd (fold_left
            (Deploy.visit readJsonSync readFileSync path_join base64_encode
               (Deploy.path (Deploy.functionConfig item)))
            files (VUndefined, VUndefined)))
  = Returned configuration ->
  createFunction (Deploy.dashboard item) (Deploy.projectName item) (fresh (dom (heap w)))
    (holding (fresh (dom (heap w))) configuration
       (logged [AppendLine "Reading files from directory";
                AppendLine "Deploying function..."] w))
  = (result, w') ->
  Deploy.deploy readdirSync readJsonSync readFileSync path_join base64_encode item w
  = match result with
    | Returned _ =>
        (Returned tt,
         logged [ShowInformationMessage "Function deployed successfully";
                 AppendLine "Function deployed successfully"] w')
    | Threw e => (Threw e, w')
    | Unmodelled => (Unmodelled, w')
    end.
Proof.
  intros Hdir Hset Hcreate.
  rewrite (deploy_run item w files configuration Hdir Hset).
  erewrite bind_eq by exact Hcreate.
  destruct result as [v|e|]; try reflexivity.
  erewrite bind_eq by reflexivity. cbv iota beta.
  unfold emit, logged. cbn [heap server trace]. now rewrite <- app_assoc.
Qed.
End DeployMore.

(** ** The further theorems at work *)

Lemma delete_sends_the_identity_record_witness :
  since (world0 0)
    (snd (Dashboard.deleteFunction (serve_script [ok VNull]) json_text local
            (mkFunctionFilter hello VUndefined) (world0 0)))
  = [Http (mkRequest DELETE "http://localhost:8070/api/functions"
             (VString
                (json_text
                   (VObject [("metadata", VObject hello_metadata);
                             ("spec", VObject [("build", VObject [])]);
                             ("status", VObject [])])))
             VUndefined)].
Proof.
  destruct (delete_sends_the_identity_record (serve_script [ok VNull]) json_text local
              hello (mkFunctionFilter hello VUndefined) (world0 0)
              ltac:(discriminate) ltac:(discriminate))
    as [_ Hfunction].
  rewrite Hfunction. reflexivity.
Defined.

(** Not found, then ready. *)
Lemma createFunction_returns_the_first_ready_function_witness :
  exists w',
    Dashboard.createFunction
      (serve_script [ok VNull; not_found; ok (function_in_state "ready" "")])
      json_text local "proj" 0 (world0 0)
    = (Returned (VObject (Object_assign FunctionConfig (function_in_state "ready" ""))),
       w') /\
    polling_calls (since (world0 0) w') = 2.
Proof.
  destruct (createFunction_returns_the_first_ready_function
              (serve_script [ok VNull; not_found; ok (function_in_state "ready" "")])
              json_text local "proj" 0 hello_config hello_props hello_metadata []
              (world0 0) (accepted VNull) 1
              (VObject (Object_assign FunctionConfig (function_in_state "ready" "")))
              []
              eq_refl eq_refl eq_refl
              ltac:(unfold Dashboard.maxRetries; lia)
              ltac:(intros j Hj; destruct j as [|j]; [reflexivity|lia])
              eq_refl eq_refl)
    as (w' & Hrun & _ & Hcalls).
  exists w'. split; [exact Hrun|exact Hcalls].
Defined.

(** The first poll finds a function whose status is [null]. *)
Lemma createFunction_raises_on_unreadable_status_witness :
  exists w',
    Dashboard.createFunction
      (serve_script [ok VNull; ok (VObject [("status", VNull)])])
      json_text local "proj" 0 (world0 0)
    = (Threw JsTypeError, w') /\
    polling_calls (since (world0 0) w') = 1.
Proof.
  exact (createFunction_raises_on_unreadable_status
           (serve_script [ok VNull; ok (VObject [("status", VNull)])])
           json_text local "proj" 0 hello_config hello_props hello_metadata []
           (world0 0) (accepted VNull) 0
           (VObject (Object_assign FunctionConfig (VObject [("status", VNull)])))
           []
           eq_refl eq_refl eq_refl
           ltac:(unfold Dashboard.maxRetries; lia)
           ltac:(intros j Hj; lia)
           eq_refl eq_refl).
Defined.

Lemma createFunction_without_metadata_raises_before_any_request_witness :
  Dashboard.createFunction (serve_script [ok VNull]) json_text local "proj" 0 bare_world
  = (Threw JsTypeError, bare_world).
Proof.
  exact (createFunction_without_metadata_raises_before_any_request
           (serve_script [ok VNull]) json_text local "proj" 0 (VObject []) bare_world
           eq_refl (or_intror eq_refl)).
Defined.

Lemma createFunction_makes_at_most_60_identical_polls_witness :
  requests
    (since (world0 tt)
       (snd (Dashboard.createFunction (serve_const (ok (function_in_state "building" "")))
               json_text local "proj" 0 (world0 tt))))
  <= 61.
Proof.
  destruct (createFunction_makes_at_most_60_identical_polls
              (serve_const (ok (function_in_state "building" ""))) json_text local
              "proj" 0 hello_config hello_props hello_metadata [] (world0 tt)
              eq_refl eq_refl)
    as (k & final & _ & _ & _ & _ & Hrequests).
  exact Hrequests.
Defined.

Lemma named_read_of_an_empty_payload_yields_a_fresh_record_witness :
  fst (Dashboard.getProjects (serve_const (ok VNull)) local hello (world0 tt))
  = Returned [VObject ProjectConfig].
Proof.
  unfold Dashboard.getProjects.
  rewrite (named_read_of_an_empty_payload_yields_a_fresh_record
             (serve_const (ok VNull)) local hello "project" ProjectConfig []
             VUndefined (accepted VNull) (world0 tt)
             (or_intror (conj eq_refl eq_refl)) ltac:(discriminate) eq_refl eq_refl).
  reflexivity.
Defined.

Lemma unnamed_read_of_null_raises_witness :
  fst (Dashboard.getProjects (serve_const (ok VNull)) local anonymous (world0 tt))
  = Threw JsTypeError.
Proof.
  unfold Dashboard.getProjects.
  rewrite (unnamed_read_of_null_raises
             (serve_const (ok VNull)) local anonymous "project" ProjectConfig []
             VUndefined (accepted VNull) (world0 tt)
             (or_intror (conj eq_refl eq_refl)) eq_refl eq_refl eq_refl).
  reflexivity.
Defined.

Lemma unnamed_read_of_an_empty_map_is_empty_witness :
  fst (Dashboard.getProjects (serve_const (ok (VObject []))) local anonymous (world0 tt))
  = Returned [].
Proof.
  unfold Dashboard.getProjects.
  rewrite (unnamed_read_of_an_empty_map_is_empty
             (serve_const (ok (VObject []))) local anonymous "project" ProjectConfig []
             VUndefined (accepted (VObject [])) (world0 tt)
             (or_intror (conj eq_refl eq_refl)) eq_refl eq_refl eq_refl eq_refl).
  reflexivity.
Defined.

Lemma hello_spec_distinct : NoDup (map fst [("spec", VObject [("runtime", VString "go")])]).
Proof. apply (bool_decide_unpack _). vm_compute. exact I. Qed.

(** A payload with a [spec] of its own and no [status]. *)
Lemma read_record_takes_payload_members_over_constructor_defaults_witness :
  exists record,
    fst (Dashboard.getResources
           (serve_const (ok (VObject [("spec", VObject [("runtime", VString "go")])])))
           local hello "function" FunctionConfig VUndefined (world0 tt))
    = Returned [VObject record] /\
    lookup_prop "spec" record = Some (VObject [("runtime", VString "go")]) /\
    lookup_prop "status" record = Some (VObject []).
Proof.
  destruct (read_record_takes_payload_members_over_constructor_defaults
              (serve_const (ok (VObject [("spec", VObject [("runtime", VString "go")])])))
              local hello "function" FunctionConfig [] VUndefined
              (accepted (VObject [("spec", VObject [("runtime", VString "go")])]))
              [("spec", VObject [("runtime", VString "go")])] (world0 tt)
              (or_intror (conj eq_refl eq_refl)) ltac:(discriminate) eq_refl eq_refl
              hello_spec_distinct)
    as (record & Hrun & Hfields).
  exists record. rewrite Hrun, !Hfields. repeat split.
Defined.

Lemma function_without_status_keeps_the_loop_going_witness :
  Dashboard.poll (serve_script [ok (VObject [("spec", VObject [("runtime", VString "go")])])])
    local 0 1 (world0 0)
  = Dashboard.poll (serve_script [ok (VObject [("spec", VObject [("runtime", VString "go")])])])
      local 0 0
      (waited (serve_script [ok (VObject [("spec", VObject [("runtime", VString "go")])])])
         (poll_request local hello_config) (world0 0)).
Proof.
  exact (function_without_status_keeps_the_loop_going
           (serve_script [ok (VObject [("spec", VObject [("runtime", VString "go")])])])
           local 0 hello_config hello_metadata
           (accepted (VObject [("spec", VObject [("runtime", VString "go")])]))
           [("spec", VObject [("runtime", VString "go")])] 0 (world0 0)
           eq_refl eq_refl ltac:(discriminate) eq_refl eq_refl hello_spec_distinct
           eq_refl).
Defined.

Lemma invocation_headers_identify_the_function_witness :
  exists request sent,
    since (world0 0)
      (snd (Dashboard.invokeFunction (serve_script [ok VNull]) local hello
              (mkInvokeOptions "get" VUndefined (VString "/ping")
                 (VObject [("accept", VString "text/plain")]) VUndefined VUndefined)
              (world0 0)))
    = [Http request] /\
    req_headers request = VObject sent /\
    lookup_prop "x-nuclio-function-name" sent = Some (VString "hello") /\
    lookup_prop "x-nuclio-invoke-via" sent = Some (VString "external-ip") /\
    lookup_prop "x-nuclio-path" sent = Some (VString "/ping") /\
    lookup_prop "accept" sent = Some (VString "text/plain").
Proof.
  destruct (invocation_headers_identify_the_function
              (serve_script [ok VNull]) local hello
              (mkInvokeOptions "get" VUndefined (VString "/ping")
                 (VObject [("accept", VString "text/plain")]) VUndefined VUndefined)
              [("accept", VString "text/plain")] GET (world0 0)
              ltac:(discriminate) (or_introl eq_refl) eq_refl ltac:(discriminate))
    as (request & sent & Hsince & _ & _ & Hsent & Hname & _ & Hvia & Hpath & Hother).
  exists request, sent. rewrite Hsince, Hsent, Hname, Hvia, Hpath.
  rewrite Hother by discriminate. repeat split.
Defined.

Lemma invocation_wraps_the_response_as_it_came_witness :
  fst (Dashboard.invokeFunction
         (serve_const (Fulfilled (mkResponse 201 (VObject [("x", VString "y")]) (VNumber 7))))
         local hello (invoke_with "patch") (world0 tt))
  = Returned (mkInvokeResult 201 (VObject [("x", VString "y")]) (VNumber 7)).
Proof.
  destruct (invocation_wraps_the_response_as_it_came
              (serve_const
                 (Fulfilled (mkResponse 201 (VObject [("x", VString "y")]) (VNumber 7))))
              local hello (invoke_with "patch") [] PATCH (world0 tt)
              ltac:(discriminate) (or_intror (conj eq_refl eq_refl)) eq_refl)
    as (request & _ & _ & Hresult).
  rewrite Hresult. reflexivity.
Defined.

Lemma createFunction_again_only_overwrites_the_label_witness :
  heap (snd (Dashboard.createFunction (serve_const not_found) json_text local "other" 0
               (snd (Dashboard.createFunction (serve_const not_found) json_text local
                       "proj" 0 (world0 tt)))))
  = <[0 := with_project "other" hello_props hello_metadata []]> (heap (world0 tt)).
Proof.
  exact (proj1 (createFunction_again_only_overwrites_the_label
                  (serve_const not_found) json_text local "proj" "other" 0 hello_config
                  hello_props hello_metadata [] (world0 tt) eq_refl eq_refl)).
Defined.

Lemma getExtension_is_the_text_after_the_last_dot_witness :
  Deploy.getExtension "archive.tar.gz" = "gz" /\ Deploy.getExtension "yaml" = "yaml".
Proof.
  split.
  - exact (proj1 (getExtension_is_the_text_after_the_last_dot "archive.tar" "gz" eq_refl)).
  - exact (proj1 (proj2 (getExtension_is_the_text_after_the_last_dot "" "yaml" eq_refl))).
Defined.

Lemma deploy_of_an_unlistable_directory_throws_witness :
  Deploy.deploy (fun _ => None) hello_json hello_text join_with_slash base64_of
    (hello_item (serve_script [ok VNull])) (world0 0)
  = (Threw FsFailure, logged [AppendLine "Reading files from directory"] (world0 0)).
Proof.
  exact (deploy_of_an_unlistable_directory_throws
           (fun _ => None) hello_json hello_text join_with_slash base64_of
           (hello_item (serve_script [ok VNull])) (world0 0) eq_refl).
Defined.

(** A directory with two source files and no configuration. *)
Lemma deploy_without_a_configuration_file_raises_witness :
  Deploy.deploy (fun _ => Some ["handler.py"; "util.py"]) hello_json hello_text
    join_with_slash base64_of (hello_item (serve_script [ok VNull])) (world0 0)
  = (Threw JsTypeError, logged [AppendLine "Reading files from directory"] (world0 0)).
Proof.
  apply (deploy_without_a_configuration_file_raises
           (fun _ => Some ["handler.py"; "util.py"]) hello_json hello_text
           join_with_slash base64_of (hello_item (serve_script [ok VNull])) (world0 0)
           ["handler.py"; "util.py"] eq_refl).
  repeat constructor; discriminate.
Defined.

(** Two source files around the configuration, then a directory and a
    file that does not parse: the later source file is sent. *)
Lemma last_listed_file_of_each_kind_wins_witness :
  fold_left
    (Deploy.visit
       (fun file => if String.eqb file "d/func.yaml" then Some hello_config else None)
       (fun file => if String.eqb file "d/node_modules" then None else Some file)
       join_with_slash (fun text => Some text) "d")
    ["a.py"; "func.yaml"; "b.py"; "node_modules"; "broken.yaml"] (VUndefined, VUndefined)
  = (hello_config, VString "d/b.py").
Proof.
  apply (last_listed_file_of_each_kind_wins
           (fun file => if String.eqb file "d/func.yaml" then Some hello_config else None)
           (fun file => if String.eqb file "d/node_modules" then None else Some file)
           join_with_slash (fun text => Some text) "d"
           ["a.py"; "func.yaml"; "b.py"; "node_modules"; "broken.yaml"]
           ["a.py"] ["b.py"; "node_modules"; "broken.yaml"]
           ["a.py"; "func.yaml"] ["node_modules"; "broken.yaml"]
           "func.yaml" "b.py" hello_config "d/b.py" "d/b.py"
           eq_refl eq_refl eq_refl).
  - constructor; [left; discriminate|].
    constructor; [left; discriminate|].
    constructor; [right; reflexivity|constructor].
  - reflexivity.
  - discriminate.
  - reflexivity.
  - reflexivity.
  - constructor; [right; left; reflexivity|].
    constructor; [left; reflexivity|constructor].
Defined.

(** A dashboard that never gets the function ready: after the timeout
    [createFunction] returns [undefined], and [deploy] reports success. *)
Lemma deploy_reports_success_whenever_createFunction_returns_witness :
  fst (Deploy.deploy hello_listing hello_json hello_text join_with_slash base64_of
         (hello_item (serve_const (ok (function_in_state "building" "")))) (world0 tt))
  = Returned tt.
Proof.
  rewrite (deploy_reports_success_whenever_createFunction_returns
             hello_listing hello_json hello_text join_with_slash base64_of
             (hello_item (serve_const (ok (function_in_state "building" ""))))
             (world0 tt)
             (snd (Dashboard.createFunction
                     (serve_const (ok (function_in_state "building" ""))) json_text
                     local "proj" 1
                     (holding 1 hello_deployed
                        (logged [AppendLine "Reading files from directory";
                                 AppendLine "Deploying function..."] (world0 tt)))))
             ["func.yaml"; "handler.py"] hello_deployed (Returned VUndefined)
             eq_refl eq_refl ltac:(vm_compute; reflexivity)).
  reflexivity.
Defined.
